(** * ProxyPanel API client (api/proxypanel/proxypanel.go)

    A shallow embedding of the panel client: the endpoint dispatch on the
    node type, the response envelope check, the user-list adapters with
    the device-limit reconciliation against the last online report, the
    rule aggregation and the report operations.

    Conventions.
    - Go's [int] is the 64-bit two's-complement integer; it is a [Z] kept
      in range by [int_wrap] after every arithmetic operation.
    - Go's [float64] is Rocq's primitive binary64 [float].
    - [map[int]int] is a [gmap Z Z].
    - A method with receiver [c *APIClient] takes the client and the
      list of requests sent so far, and returns its result with the new
      client and the new list.
    - The JSON codec, the regular-expression compiler, the HTTP transport
      and the clock are collaborators outside this package; they are the
      fields of the class [External]. *)

From Stdlib Require Import ZArith Floats Bool List Lia.
From stdpp Require Import base option list gmap strings pretty.

Open Scope string_scope.
Open Scope list_scope.
Open Scope Z_scope.

(** ** Go integers *)

Definition int_min : Z := - 2 ^ 63.
Definition int_max : Z := 2 ^ 63 - 1.

Definition is_int (z : Z) : Prop := int_min <= z <= int_max.

(** Two's-complement wrap-around of a 64-bit signed integer. *)
Definition int_wrap (z : Z) : Z := (z + 2 ^ 63) mod 2 ^ 64 - 2 ^ 63.

Definition int_add (a b : Z) : Z := int_wrap (a + b).
Definition int_sub (a b : Z) : Z := int_wrap (a - b).

(** [uint64(x)] of an integer [x]. *)
Definition uint64 (z : Z) : Z := z mod 2 ^ 64.

(** [uint64(f)] of a [float64]: truncation toward zero.  Go leaves the
    conversion of a value that does not fit (negative, infinite, NaN)
    to the implementation; it is 0 here. *)
Definition uint64_of_float (f : float) : Z :=
  match Prim2SF f with
  | S754_finite false m e =>
      let v := if 0 <=? e then Z.pos m * 2 ^ e else Z.pos m / 2 ^ (- e) in
      if v <? 2 ^ 64 then v else 0
  | _ => 0
  end.

(** [int(f)] of a [float64], same convention. *)
Definition int_of_float (f : float) : Z :=
  match Prim2SF f with
  | S754_finite s m e =>
      let v := if 0 <=? e then Z.pos m * 2 ^ e else Z.pos m / 2 ^ (- e) in
      if v <? 2 ^ 63 then (if s then - v else v) else 0
  | _ => 0
  end.

(** [fmt.Sprintf("%d", n)]. *)
Definition fmt_d (n : Z) : string := pretty n.

(** ** Wire structures *)

(** [json.RawMessage]: the undecoded bytes of a JSON value. *)
Definition RawMessage := string.

(** Modelled from the spec: the wire structs are declared in model.go,
    which is not among the sources.  The envelope is the spec's
    [{status, message?, data}]. *)
Record Response := {
  Status : string;
  Message : string;
  Data : RawMessage
}.

(** Modelled from the spec: declared in model.go; the fields are those
    [ParseV2rayUserListResponse] reads. *)
Record VMessUser := {
  VM_UID : Z;
  VM_VmessUID : string;
  VM_SpeedLimit : Z;
  VM_DeviceLimit : Z;
  VM_OnlineCount : Z
}.

(** Modelled from the spec: declared in model.go; the fields are those
    [ParseTrojanUserListResponse] reads. *)
Record TrojanUser := {
  TJ_UID : Z;
  TJ_Password : string;
  TJ_SpeedLimit : Z;
  TJ_DeviceLimit : Z;
  TJ_OnlineCount : Z
}.

(** Modelled from the spec: declared in model.go.  [ParseSSUserListResponse]
    reads the id, the password and the speed limit; the device limit and
    the online count are the payload values the spec's field-mapping
    policy gives every variant. *)
Record SSUser := {
  SS_UID : Z;
  SS_Password : string;
  SS_SpeedLimit : Z;
  SS_DeviceLimit : Z;
  SS_OnlineCount : Z
}.

(** Modelled from the spec: declared in model.go; the fields are those
    [ParseV2rayNodeResponse] reads. *)
Record V2rayNodeInfo := {
  V2_SpeedLimit : Z;
  V2_ClientLimit : Z;
  V2Port : Z;
  V2AlterID : Z;
  V2Net : string;
  V2Type : string;
  V2Path : string;
  V2Host : string;
  V2TLS : bool
}.

(** Modelled from the spec: declared in model.go; the fields are those
    [ParseSSNodeResponse] reads. *)
Record ShadowsocksNodeInfo := {
  SSN_SpeedLimit : Z;
  SSN_ClientLimit : Z;
  SSN_Port : Z;
  SSN_Method : string
}.

(** Modelled from the spec: declared in model.go; the fields are those
    [ParseTrojanNodeResponse] reads. *)
Record TrojanNodeInfo := {
  TJN_SpeedLimit : Z;
  TJN_ClientLimit : Z;
  TrojanPort : Z
}.

(** Modelled from the spec: declared in model.go; a panel rule is the
    spec's [{id, type, pattern}]. *)
Record NodeRuleItem := {
  NR_ID : Z;
  NR_Type : string;
  NR_Pattern : string
}.

(** Modelled from the spec: declared in model.go; the spec's rule
    descriptor, a mode and a list of rules. *)
Record NodeRule := {
  Mode : string;
  Rules : list NodeRuleItem
}.

(** Modelled from the spec: declared in model.go; the request bodies of
    the report operations, with the fields the code fills. *)
Record NodeStatus := {
  NS_Uptime : Z;
  NS_CPU : string;
  NS_Mem : string;
  NS_Disk : string
}.

Record NodeOnline := {
  NO_UID : Z;
  NO_IP : string
}.

Record UserTraffic := {
  UT_UID : Z;
  UT_Upload : Z;
  UT_Download : Z
}.

Record IllegalReport := {
  IR_RuleID : Z;
  IR_UID : Z;
  IR_Reason : string
}.

(** ** Structures of package api *)

(** Modelled from the spec: package api is not among the sources; the
    normalized records carry the fields this package sets. *)
Record UserInfo := {
  UID : Z;
  Email : string;
  Passwd : string;
  UUID : string;
  UI_DeviceLimit : Z;
  UI_SpeedLimit : Z
}.

Record NodeInfo := {
  NI_NodeType : string;
  NI_NodeID : Z;
  NI_Port : Z;
  NI_SpeedLimit : Z;
  NI_DeviceLimit : Z;
  NI_AlterID : Z;
  NI_TransportProtocol : string;
  NI_FakeType : string;
  NI_ServiceName : string;
  NI_Header : option RawMessage;
  NI_EnableTLS : bool;
  NI_TLSType : string;
  NI_Path : string;
  NI_Host : string;
  NI_EnableVless : bool;
  NI_CypherMethod : string
}.

(** A compiled pattern, identified by the expression it was compiled from. *)
Record Regexp := { expr : string }.

Record DetectRule := {
  DR_ID : Z;
  DR_Pattern : Regexp
}.

Record OnlineUser := {
  OU_UID : Z;
  OU_IP : string
}.

Record api_UserTraffic := {
  AT_UID : Z;
  AT_Upload : Z;
  AT_Download : Z
}.

Record DetectResult := {
  DT_UID : Z;
  DT_RuleID : Z
}.

Record api_NodeStatus := {
  AS_CPU : float;
  AS_Mem : float;
  AS_Disk : float;
  AS_Uptime : Z
}.

(** ** The client *)

(** [APIClient].  The resty client is the transport of [External]; the
    mutex [access] has no content in a sequential model. *)
Record APIClient := {
  APIHost : string;
  NodeID : Z;
  Key : string;
  NodeType : string;
  EnableVless : bool;
  EnableXTLS : bool;
  SpeedLimit : float;
  DeviceLimit : Z;
  LocalRuleList : list DetectRule;
  LastReportOnline : gmap Z Z
}.

(** [c.LastReportOnline = m], and the in-place updates of the map. *)
Definition set_LastReportOnline (c : APIClient) (m : gmap Z Z) : APIClient :=
  {| APIHost := APIHost c; NodeID := NodeID c; Key := Key c;
     NodeType := NodeType c; EnableVless := EnableVless c;
     EnableXTLS := EnableXTLS c; SpeedLimit := SpeedLimit c;
     DeviceLimit := DeviceLimit c; LocalRuleList := LocalRuleList c;
     LastReportOnline := m |}.

(** ** Requests and responses *)

Inductive Method := GET | POST.

Inductive Body :=
| NoBody
| BodyNodeStatus (s : NodeStatus)
| BodyNodeOnline (l : list NodeOnline)
| BodyUserTraffic (l : list UserTraffic)
| BodyIllegalReport (r : IllegalReport).

(** A request as [createCommonRequest] and the call site build it. *)
Record Request := {
  ReqMethod : Method;
  ReqPath : string;
  HeaderKey : string;
  HeaderTimestamp : string;
  ReqBody : Body
}.

(** What the code reads of a [*resty.Response]. *)
Record resty_Response := {
  StatusCode : Z;
  RespBody : string;
  Result : Response
}.

(** ** Errors and results *)

(** The errors the package builds with [fmt.Errorf], one constructor per
    format string.  The text of an underlying error of the JSON codec is
    not kept. *)
Inductive error :=
| UnsupportedNodeType (nodeType : string)
    (* "Unsupported Node type: %s" *)
| RequestFailed (url : string) (cause : string)
    (* "request %s failed: %s" *)
| RequestFailedStatus (url : string) (body : string)
    (* "request %s failed: %s, %s" *)
| RetInvalid (envelope : string)
    (* "Ret %s invalid" *)
| UnmarshalFailed (type : string)
    (* "Unmarshal %s failed: %s" *)
| ParseNodeInfoFailed (data : string) (cause : error)
    (* "Parse node info failed: %s, \nError: %s" *)
| ParseUserListFailed (data : string).
    (* "Parse user list failed: %s" *)

Inductive panic :=
| NilPointerDereference
| RegexpMustCompile (pattern : string).
    (* regexp.MustCompile on an expression that does not parse *)

(** The ways a call ends: a value, a returned error, or a panic. *)
Inductive result (A : Type) :=
| Ok (a : A)
| Err (e : error)
| Panicked (p : panic).
Arguments Ok {A} a.
Arguments Err {A} e.
Arguments Panicked {A} p.

(** ** Collaborators *)

Class External := {
  (** [json.Unmarshal] into each target type; [None] is a returned error.
      For a slice the codec is given by its view of the payload as an
      array ([json_array], with JSON null the empty array) and by the
      decoding of one element into a pointer, which JSON null leaves nil
      ([Some None]). *)
  json_array : RawMessage -> option (list RawMessage);
  Unmarshal_VMessUser : RawMessage -> option (option VMessUser);
  Unmarshal_TrojanUser : RawMessage -> option (option TrojanUser);
  Unmarshal_SSUser : RawMessage -> option (option SSUser);
  Unmarshal_V2rayNodeInfo : RawMessage -> option V2rayNodeInfo;
  Unmarshal_ShadowsocksNodeInfo : RawMessage -> option ShadowsocksNodeInfo;
  Unmarshal_TrojanNodeInfo : RawMessage -> option TrojanNodeInfo;
  Unmarshal_NodeRule : RawMessage -> option NodeRule;
  (** [json.Marshal] of the envelope and of a raw message. *)
  Marshal_Response : Response -> string;
  Marshal_RawMessage : RawMessage -> string;
  (** whether [regexp.Compile] accepts the expression *)
  regexp_parses : string -> bool;
  (** the resty client: what a request returns, given the requests sent
      before it: the response and the error *)
  resty_Execute : list Request -> Request -> resty_Response * option string;
  (** [time.Now().Unix()] *)
  time_Now_Unix : list Request -> Z
}.

Section Client.
Context `{Ext : External}.

(** [json.Unmarshal] into a slice of pointers: the call returns an error
    as soon as the payload is no array or one element does not decode. *)
Definition Unmarshal_slice {A : Type}
    (element : RawMessage -> option (option A)) (raw : RawMessage)
  : option (list (option A)) :=
  match json_array raw with
  | None => None
  | Some elements => mapM element elements
  end.

(** ** Requests *)

Definition assembleURL (c : APIClient) (path : string) : string :=
  APIHost c +:+ path.

(** [createCommonRequest], completed by the call site with the method,
    the path and the body. *)
Definition createCommonRequest (c : APIClient) (sent : list Request)
    (m : Method) (path : string) (body : Body) : Request :=
  {| ReqMethod := m; ReqPath := path; HeaderKey := Key c;
     HeaderTimestamp := fmt_d (time_Now_Unix sent); ReqBody := body |}.

(** [c.createCommonRequest()...Get(path)] or [...Post(path)]: the request
    goes out and joins the requests sent. *)
Definition send (c : APIClient) (sent : list Request)
    (m : Method) (path : string) (body : Body)
  : resty_Response * option string * list Request :=
  let req := createCommonRequest c sent m path body in
  (resty_Execute sent req, (sent ++ [req])).

Definition parseResponse (c : APIClient) (res : resty_Response)
    (path : string) (err : option string) : result Response :=
  match err with
  | Some e => Err (RequestFailed (assembleURL c path) e)
  | None =>
      if 400 <? StatusCode res then
        Err (RequestFailedStatus (assembleURL c path) (RespBody res))
      else
        let response := Result res in
        if negb (Status response =? "success")%string then
          Err (RetInvalid (Marshal_Response response))
        else Ok response
  end.

(** The [switch c.NodeType] at the head of each operation: its path, or
    [None] in the default case. *)
Definition GetNodeInfo_path (c : APIClient) : option string :=
  if (NodeType c =? "V2ray")%string then
    Some ("/api/v2ray/v1/node/" +:+ fmt_d (NodeID c))
  else if (NodeType c =? "Trojan")%string then
    Some ("/api/trojan/v1/node/" +:+ fmt_d (NodeID c))
  else if (NodeType c =? "Shadowsocks")%string then
    Some ("/api/ss/v1/node/" +:+ fmt_d (NodeID c))
  else None.

Definition GetUserList_path (c : APIClient) : option string :=
  if (NodeType c =? "V2ray")%string then
    Some ("/api/v2ray/v1/userList/" +:+ fmt_d (NodeID c))
  else if (NodeType c =? "Trojan")%string then
    Some ("/api/trojan/v1/userList/" +:+ fmt_d (NodeID c))
  else if (NodeType c =? "Shadowsocks")%string then
    Some ("/api/ss/v1/userList/" +:+ fmt_d (NodeID c))
  else None.

Definition ReportNodeStatus_path (c : APIClient) : option string :=
  if (NodeType c =? "V2ray")%string then
    Some ("/api/v2ray/v1/nodeStatus/" +:+ fmt_d (NodeID c))
  else if (NodeType c =? "Trojan")%string then
    Some ("/api/trojan/v1/nodeStatus/" +:+ fmt_d (NodeID c))
  else if (NodeType c =? "Shadowsocks")%string then
    Some ("/api/ss/v1/nodeStatus/" +:+ fmt_d (NodeID c))
  else None.

Definition ReportNodeOnlineUsers_path (c : APIClient) : option string :=
  if (NodeType c =? "V2ray")%string then
    Some ("/api/v2ray/v1/nodeOnline/" +:+ fmt_d (NodeID c))
  else if (NodeType c =? "Trojan")%string then
    Some ("/api/trojan/v1/nodeOnline/" +:+ fmt_d (NodeID c))
  else if (NodeType c =? "Shadowsocks")%string then
    Some ("/api/ss/v1/nodeOnline/" +:+ fmt_d (NodeID c))
  else None.

Definition ReportUserTraffic_path (c : APIClient) : option string :=
  if (NodeType c =? "V2ray")%string then
    Some ("/api/v2ray/v1/userTraffic/" +:+ fmt_d (NodeID c))
  else if (NodeType c =? "Trojan")%string then
    Some ("/api/trojan/v1/userTraffic/" +:+ fmt_d (NodeID c))
  else if (NodeType c =? "Shadowsocks")%string then
    Some ("/api/ss/v1/userTraffic/" +:+ fmt_d (NodeID c))
  else None.

Definition GetNodeRule_path (c : APIClient) : option string :=
  if (NodeType c =? "V2ray")%string then
    Some ("/api/v2ray/v1/nodeRule/" +:+ fmt_d (NodeID c))
  else if (NodeType c =? "Trojan")%string then
    Some ("/api/trojan/v1/nodeRule/" +:+ fmt_d (NodeID c))
  else if (NodeType c =? "Shadowsocks")%string then
    Some ("/api/ss/v1/nodeRule/" +:+ fmt_d (NodeID c))
  else None.

Definition ReportIllegal_path (c : APIClient) : option string :=
  if (NodeType c =? "V2ray")%string then
    Some ("/api/v2ray/v1/trigger/" +:+ fmt_d (NodeID c))
  else if (NodeType c =? "Trojan")%string then
    Some ("/api/trojan/v1/trigger/" +:+ fmt_d (NodeID c))
  else if (NodeType c =? "Shadowsocks")%string then
    Some ("/api/ss/v1/trigger/" +:+ fmt_d (NodeID c))
  else None.

(** ** Node information *)

Definition TLSType (c : APIClient) : string :=
  if EnableXTLS c then "xtls" else "tls".

(** [speedlimit] of the node and user adapters. *)
Definition speedlimit_of (c : APIClient) (payload : Z) : Z :=
  if (0 <? SpeedLimit c)%float
  then uint64_of_float (SpeedLimit c * 1000000 / 8)%float
  else uint64 payload.

Definition dquote : string := String (Ascii.ascii_of_nat 34) EmptyString.

Definition ParseV2rayNodeResponse (c : APIClient)
    (nodeInfoResponse : RawMessage) : result NodeInfo :=
  match Unmarshal_V2rayNodeInfo nodeInfoResponse with
  | None => Err (UnmarshalFailed "json.RawMessage")
  | Some v2rayNodeInfo =>
      let speedlimit := speedlimit_of c (V2_SpeedLimit v2rayNodeInfo) in
      let devicelimit :=
        if 0 <? DeviceLimit c then DeviceLimit c
        else V2_ClientLimit v2rayNodeInfo in
      let header :=
        if (V2Type v2rayNodeInfo =? "http")%string then
          Some ("{" +:+ dquote +:+ "type" +:+ dquote +:+ ":" +:+ dquote
                +:+ "http" +:+ dquote +:+ "," +:+ dquote +:+ "request"
                +:+ dquote +:+ ": {" +:+ dquote +:+ "path" +:+ dquote
                +:+ ":" +:+ dquote +:+ V2Path v2rayNodeInfo +:+ dquote
                +:+ "}}")
        else None in
      Ok {| NI_NodeType := NodeType c; NI_NodeID := NodeID c;
            NI_Port := V2Port v2rayNodeInfo;
            NI_SpeedLimit := speedlimit; NI_DeviceLimit := devicelimit;
            NI_AlterID := V2AlterID v2rayNodeInfo;
            NI_TransportProtocol := V2Net v2rayNodeInfo;
            NI_FakeType := V2Type v2rayNodeInfo;
            NI_ServiceName := V2Path v2rayNodeInfo;
            NI_Header := header;
            NI_EnableTLS := V2TLS v2rayNodeInfo;
            NI_TLSType := TLSType c;
            NI_Path := V2Path v2rayNodeInfo;
            NI_Host := V2Host v2rayNodeInfo;
            NI_EnableVless := EnableVless c;
            NI_CypherMethod := "" |}
  end.

Definition ParseSSNodeResponse (c : APIClient)
    (nodeInfoResponse : RawMessage) : result NodeInfo :=
  match Unmarshal_ShadowsocksNodeInfo nodeInfoResponse with
  | None => Err (UnmarshalFailed "json.RawMessage")
  | Some shadowsocksNodeInfo =>
      let speedlimit := speedlimit_of c (SSN_SpeedLimit shadowsocksNodeInfo) in
      let devicelimit :=
        if 0 <? DeviceLimit c then DeviceLimit c
        else SSN_ClientLimit shadowsocksNodeInfo in
      Ok {| NI_NodeType := NodeType c; NI_NodeID := NodeID c;
            NI_Port := SSN_Port shadowsocksNodeInfo;
            NI_SpeedLimit := speedlimit; NI_DeviceLimit := devicelimit;
            NI_AlterID := 0;
            NI_TransportProtocol := "tcp";
            NI_FakeType := ""; NI_ServiceName := ""; NI_Header := None;
            NI_EnableTLS := false; NI_TLSType := "";
            NI_Path := ""; NI_Host := ""; NI_EnableVless := false;
            NI_CypherMethod := SSN_Method shadowsocksNodeInfo |}
  end.

Definition ParseTrojanNodeResponse (c : APIClient)
    (nodeInfoResponse : RawMessage) : result NodeInfo :=
  match Unmarshal_TrojanNodeInfo nodeInfoResponse with
  | None => Err (UnmarshalFailed "json.RawMessage")
  | Some trojanNodeInfo =>
      let speedlimit := speedlimit_of c (TJN_SpeedLimit trojanNodeInfo) in
      let devicelimit :=
        if 0 <? DeviceLimit c then DeviceLimit c
        else TJN_ClientLimit trojanNodeInfo in
      Ok {| NI_NodeType := NodeType c; NI_NodeID := NodeID c;
            NI_Port := TrojanPort trojanNodeInfo;
            NI_SpeedLimit := speedlimit; NI_DeviceLimit := devicelimit;
            NI_AlterID := 0;
            NI_TransportProtocol := "tcp";
            NI_FakeType := ""; NI_ServiceName := ""; NI_Header := None;
            NI_EnableTLS := true; NI_TLSType := TLSType c;
            NI_Path := ""; NI_Host := ""; NI_EnableVless := false;
            NI_CypherMethod := "" |}
  end.

Definition GetNodeInfo (c : APIClient) (sent : list Request)
  : result NodeInfo * APIClient * list Request :=
  match GetNodeInfo_path c with
  | None => (Err (UnsupportedNodeType (NodeType c)), c, sent)
  | Some path =>
      let '(res, err, sent1) := send c sent GET path NoBody in
      match parseResponse c res path err with
      | Err e => (Err e, c, sent1)
      | Panicked p => (Panicked p, c, sent1)
      | Ok response =>
          let finish (parsed : result NodeInfo) :=
            match parsed with
            | Ok nodeInfo => (Ok nodeInfo, c, sent1)
            | Err e =>
                (Err (ParseNodeInfoFailed
                        (Marshal_RawMessage (Data response)) e), c, sent1)
            | Panicked p => (Panicked p, c, sent1)
            end in
          if (NodeType c =? "V2ray")%string then
            finish (ParseV2rayNodeResponse c (Data response))
          else if (NodeType c =? "Trojan")%string then
            finish (ParseTrojanNodeResponse c (Data response))
          else if (NodeType c =? "Shadowsocks")%string then
            finish (ParseSSNodeResponse c (Data response))
          else (Err (UnsupportedNodeType (NodeType c)), c, sent1)
      end
  end.

(** ** User lists *)

(** The body of the loop of [ParseV2rayUserListResponse] for one user:
    the client after it and the record appended, [None] on [continue]. *)
Definition ParseV2rayUser (c : APIClient) (user : VMessUser)
  : APIClient * option UserInfo :=
  let speedlimit := speedlimit_of c (VM_SpeedLimit user) in
  let devicelimit :=
    if 0 <? DeviceLimit c then DeviceLimit c else VM_DeviceLimit user in
  let entry (devicelimit : Z) :=
    {| UID := VM_UID user; Email := ""; Passwd := "";
       UUID := VM_VmessUID user;
       UI_DeviceLimit := devicelimit; UI_SpeedLimit := speedlimit |} in
  if (0 <? devicelimit) && (0 <? VM_OnlineCount user) then
    let lastOnline :=
      match LastReportOnline c !! VM_UID user with
      | Some v => v
      | None => 0
      end in
    let localDeviceLimit :=
      int_add (int_sub devicelimit (VM_OnlineCount user)) lastOnline in
    if 0 <? localDeviceLimit then (c, Some (entry localDeviceLimit))
    else if 0 <? lastOnline then (c, Some (entry lastOnline))
    else (c, None)
  else
    let ok := bool_decide (is_Some (LastReportOnline c !! VM_UID user)) in
    if (VM_OnlineCount user =? 0) && ok then
      (set_LastReportOnline c (delete (VM_UID user) (LastReportOnline c)),
       Some (entry devicelimit))
    else (c, Some (entry devicelimit)).

(** The loop over the decoded slice; a nil entry is dereferenced. *)
Fixpoint ParseV2rayUsers (c : APIClient) (users : list (option VMessUser))
    (userList : list UserInfo) : result (list UserInfo) * APIClient :=
  match users with
  | [] => (Ok userList, c)
  | None :: _ => (Panicked NilPointerDereference, c)
  | Some user :: rest =>
      match ParseV2rayUser c user with
      | (c1, Some info) => ParseV2rayUsers c1 rest (userList ++ [info])
      | (c1, None) => ParseV2rayUsers c1 rest userList
      end
  end.

Definition ParseV2rayUserListResponse (c : APIClient)
    (userInfoResponse : RawMessage) : result (list UserInfo) * APIClient :=
  match Unmarshal_slice Unmarshal_VMessUser userInfoResponse with
  | None => (Err (UnmarshalFailed "json.RawMessage"), c)
  | Some vmessUserList => ParseV2rayUsers c vmessUserList []
  end.

Definition ParseTrojanUser (c : APIClient) (user : TrojanUser)
  : APIClient * option UserInfo :=
  let speedlimit := speedlimit_of c (TJ_SpeedLimit user) in
  let devicelimit :=
    if 0 <? DeviceLimit c then DeviceLimit c else TJ_DeviceLimit user in
  let entry (devicelimit : Z) :=
    {| UID := TJ_UID user; Email := ""; Passwd := "";
       UUID := TJ_Password user;
       UI_DeviceLimit := devicelimit; UI_SpeedLimit := speedlimit |} in
  if (0 <? devicelimit) && (0 <? TJ_OnlineCount user) then
    let lastOnline :=
      match LastReportOnline c !! TJ_UID user with
      | Some v => v
      | None => 0
      end in
    let localDeviceLimit :=
      int_add (int_sub devicelimit (TJ_OnlineCount user)) lastOnline in
    if 0 <? localDeviceLimit then (c, Some (entry localDeviceLimit))
    else if 0 <? lastOnline then (c, Some (entry lastOnline))
    else (c, None)
  else
    let ok := bool_decide (is_Some (LastReportOnline c !! TJ_UID user)) in
    if (TJ_OnlineCount user =? 0) && ok then
      (set_LastReportOnline c (delete (TJ_UID user) (LastReportOnline c)),
       Some (entry devicelimit))
    else (c, Some (entry devicelimit)).

Fixpoint ParseTrojanUsers (c : APIClient) (users : list (option TrojanUser))
    (userList : list UserInfo) : result (list UserInfo) * APIClient :=
  match users with
  | [] => (Ok userList, c)
  | None :: _ => (Panicked NilPointerDereference, c)
  | Some user :: rest =>
      match ParseTrojanUser c user with
      | (c1, Some info) => ParseTrojanUsers c1 rest (userList ++ [info])
      | (c1, None) => ParseTrojanUsers c1 rest userList
      end
  end.

Definition ParseTrojanUserListResponse (c : APIClient)
    (userInfoResponse : RawMessage) : result (list UserInfo) * APIClient :=
  match Unmarshal_slice Unmarshal_TrojanUser userInfoResponse with
  | None => (Err (UnmarshalFailed "json.RawMessage"), c)
  | Some trojanUserList => ParseTrojanUsers c trojanUserList []
  end.

(** The body of the loop of [ParseSSUserListResponse]: [userList[i]]. *)
Definition ParseSSUser (c : APIClient) (user : SSUser) : UserInfo :=
  let speedlimit := speedlimit_of c (SS_SpeedLimit user) in
  {| UID := SS_UID user; Email := ""; Passwd := SS_Password user;
     UUID := "";
     UI_DeviceLimit := DeviceLimit c; UI_SpeedLimit := speedlimit |}.

Fixpoint ParseSSUsers (c : APIClient) (users : list (option SSUser))
    (userList : list UserInfo) : result (list UserInfo) :=
  match users with
  | [] => Ok userList
  | None :: _ => Panicked NilPointerDereference
  | Some user :: rest =>
      ParseSSUsers c rest (userList ++ [ParseSSUser c user])
  end.

Definition ParseSSUserListResponse (c : APIClient)
    (userInfoResponse : RawMessage) : result (list UserInfo) * APIClient :=
  match Unmarshal_slice Unmarshal_SSUser userInfoResponse with
  | None => (Err (UnmarshalFailed "json.RawMessage"), c)
  | Some ssUserList => (ParseSSUsers c ssUserList [], c)
  end.

Definition GetUserList (c : APIClient) (sent : list Request)
  : result (list UserInfo) * APIClient * list Request :=
  match GetUserList_path c with
  | None => (Err (UnsupportedNodeType (NodeType c)), c, sent)
  | Some path =>
      let '(res, err, sent1) := send c sent GET path NoBody in
      match parseResponse c res path err with
      | Err e => (Err e, c, sent1)
      | Panicked p => (Panicked p, c, sent1)
      | Ok response =>
          let finish (parsed : result (list UserInfo) * APIClient) :=
            match parsed with
            | (Ok userList, c1) => (Ok userList, c1, sent1)
            | (Err _, c1) =>
                (Err (ParseUserListFailed
                        (Marshal_RawMessage (Data response))), c1, sent1)
            | (Panicked p, c1) => (Panicked p, c1, sent1)
            end in
          if (NodeType c =? "V2ray")%string then
            finish (ParseV2rayUserListResponse c (Data response))
          else if (NodeType c =? "Trojan")%string then
            finish (ParseTrojanUserListResponse c (Data response))
          else if (NodeType c =? "Shadowsocks")%string then
            finish (ParseSSUserListResponse c (Data response))
          else (Err (UnsupportedNodeType (NodeType c)), c, sent1)
      end
  end.

(** ** Reports *)

Definition ReportNodeStatus (c : APIClient) (sent : list Request)
    (nodeStatus : api_NodeStatus)
  : result unit * APIClient * list Request :=
  match ReportNodeStatus_path c with
  | None => (Err (UnsupportedNodeType (NodeType c)), c, sent)
  | Some path =>
      let systemload :=
        {| NS_Uptime := AS_Uptime nodeStatus;
           NS_CPU := fmt_d (int_of_float (AS_CPU nodeStatus)) +:+ "%";
           NS_Mem := fmt_d (int_of_float (AS_Mem nodeStatus)) +:+ "%";
           NS_Disk := fmt_d (int_of_float (AS_Disk nodeStatus)) +:+ "%" |} in
      let '(res, err, sent1) :=
        send c sent POST path (BodyNodeStatus systemload) in
      match parseResponse c res path err with
      | Err e => (Err e, c, sent1)
      | Panicked p => (Panicked p, c, sent1)
      | Ok _ => (Ok tt, c, sent1)
      end
  end.

(** One turn of the counting loop of [ReportNodeOnlineUsers]. *)
Definition countOnlineUser (reportOnline : gmap Z Z) (user : OnlineUser)
  : gmap Z Z :=
  match reportOnline !! OU_UID user with
  | Some n => <[OU_UID user := int_add n 1]> reportOnline
  | None => <[OU_UID user := 1]> reportOnline
  end.

Definition ReportNodeOnlineUsers (c : APIClient) (sent : list Request)
    (onlineUserList : list OnlineUser)
  : result unit * APIClient * list Request :=
  match ReportNodeOnlineUsers_path c with
  | None => (Err (UnsupportedNodeType (NodeType c)), c, sent)
  | Some path =>
      let reportOnline := fold_left countOnlineUser onlineUserList ∅ in
      let data :=
        map (fun user => {| NO_UID := OU_UID user; NO_IP := OU_IP user |})
            onlineUserList in
      let c1 := set_LastReportOnline c reportOnline in
      let '(res, err, sent1) := send c1 sent POST path (BodyNodeOnline data) in
      match parseResponse c1 res path err with
      | Err e => (Err e, c1, sent1)
      | Panicked p => (Panicked p, c1, sent1)
      | Ok _ => (Ok tt, c1, sent1)
      end
  end.

Definition ReportUserTraffic (c : APIClient) (sent : list Request)
    (userTraffic : list api_UserTraffic)
  : result unit * APIClient * list Request :=
  match ReportUserTraffic_path c with
  | None => (Err (UnsupportedNodeType (NodeType c)), c, sent)
  | Some path =>
      let data :=
        map (fun traffic =>
               {| UT_UID := AT_UID traffic; UT_Upload := AT_Upload traffic;
                  UT_Download := AT_Download traffic |})
            userTraffic in
      let '(res, err, sent1) := send c sent POST path (BodyUserTraffic data) in
      match parseResponse c res path err with
      | Err e => (Err e, c, sent1)
      | Panicked p => (Panicked p, c, sent1)
      | Ok _ => (Ok tt, c, sent1)
      end
  end.

(** ** Rules *)

(** [regexp.MustCompile]. *)
Definition MustCompile (str : string) : result Regexp :=
  if regexp_parses str then Ok {| expr := str |}
  else Panicked (RegexpMustCompile str).

(** The loop of [GetNodeRule] over the rules of the panel. *)
Fixpoint appendPanelRules (ruleList : list DetectRule)
    (rules : list NodeRuleItem) : result (list DetectRule) :=
  match rules with
  | [] => Ok ruleList
  | r :: rest =>
      if (NR_Type r =? "reg")%string then
        match MustCompile (NR_Pattern r) with
        | Ok pattern =>
            appendPanelRules
              (ruleList ++ [{| DR_ID := NR_ID r; DR_Pattern := pattern |}])
              rest
        | Err e => Err e
        | Panicked p => Panicked p
        end
      else appendPanelRules ruleList rest
  end.

(** The second value returned by the Go function is always nil and is
    left out. *)
Definition GetNodeRule (c : APIClient) (sent : list Request)
  : result (list DetectRule) * APIClient * list Request :=
  match GetNodeRule_path c with
  | None => (Err (UnsupportedNodeType (NodeType c)), c, sent)
  | Some path =>
      let '(res, err, sent1) := send c sent GET path NoBody in
      match parseResponse c res path err with
      | Err e => (Err e, c, sent1)
      | Panicked p => (Panicked p, c, sent1)
      | Ok response =>
          match Unmarshal_NodeRule (Data response) with
          | None => (Err (UnmarshalFailed "*proxypanel.NodeRule"), c, sent1)
          | Some ruleListResponse =>
              let ruleList := LocalRuleList c in
              if negb (Mode ruleListResponse =? "reject")%string then
                (Ok ruleList, c, sent1)
              else
                (appendPanelRules ruleList (Rules ruleListResponse), c, sent1)
          end
      end
  end.

(** The loop of [ReportIllegal]: one request per result, until one fails. *)
Fixpoint reportIllegalResults (c : APIClient) (sent : list Request)
    (path : string) (detectResultList : list DetectResult)
  : result unit * list Request :=
  match detectResultList with
  | [] => (Ok tt, sent)
  | r :: rest =>
      let '(res, err, sent1) :=
        send c sent POST path
          (BodyIllegalReport {| IR_RuleID := DT_RuleID r; IR_UID := DT_UID r;
                                IR_Reason := "XrayR cannot save reason" |}) in
      match parseResponse c res path err with
      | Err e => (Err e, sent1)
      | Panicked p => (Panicked p, sent1)
      | Ok _ => reportIllegalResults c sent1 path rest
      end
  end.

Definition ReportIllegal (c : APIClient) (sent : list Request)
    (detectResultList : list DetectResult)
  : result unit * APIClient * list Request :=
  match ReportIllegal_path c with
  | None => (Err (UnsupportedNodeType (NodeType c)), c, sent)
  | Some path =>
      let '(r, sent1) := reportIllegalResults c sent path detectResultList in
      (r, c, sent1)
  end.

End Client.

(** ** The vocabulary of the statements *)

(** The node type is one of the three known variants. *)
Definition supported (c : APIClient) : Prop :=
  NodeType c = "V2ray" \/ NodeType c = "Trojan" \/ NodeType c = "Shadowsocks".

(** The endpoint path template of the specification,
    [/api/{protocolSegment}/v1/{operation}/{nodeId}]. *)
Definition spec_endpoint (protocolSegment operation : string) (nodeId : Z)
  : string :=
  "/api/" +:+ protocolSegment +:+ "/v1/" +:+ operation +:+ "/"
  +:+ fmt_d nodeId.

(** The protocol segment of a node type: v2ray, trojan or ss for the
    three known types, none for any other. *)
Definition protocolSegment (nodeType : string) : option string :=
  if (nodeType =? "V2ray")%string then Some "v2ray"
  else if (nodeType =? "Trojan")%string then Some "trojan"
  else if (nodeType =? "Shadowsocks")%string then Some "ss"
  else None.

(** The [switch] of an operation resolves the template for the known
    node types and only for them. *)
Definition resolves (path : APIClient -> option string) (op : string) : Prop :=
  forall c : APIClient,
    (supported c ->
       exists segment, protocolSegment (NodeType c) = Some segment /\
         path c = Some (spec_endpoint segment op (NodeID c))) /\
    (~ supported c -> path c = None).

(** From [sent] to [sent'], requests were sent on [path] only. *)
Definition issues_on (path : string) (sent sent' : list Request) : Prop :=
  exists reqs, sent' = sent ++ reqs /\
    Forall (fun req => ReqPath req = path) reqs.

(** The base device limit of a user: the override of the client when it
    is positive, the value of the payload otherwise. *)
Definition base_limit (c : APIClient) (payload : Z) : Z :=
  if 0 <? DeviceLimit c then DeviceLimit c else payload.

(** The retained session count of a user id, 0 when absent. *)
Definition retained (c : APIClient) (uid : Z) : Z :=
  default 0 (LastReportOnline c !! uid).

(** The reconciliation of the specification, for the user [uid] with base
    limit [L] and online count [O], as a property of the outcome [r] of
    one turn of the loop: the client after it and the record appended. *)
Definition reconciled (c : APIClient) (uid L O : Z)
    (r : APIClient * option UserInfo) : Prop :=
  let P := retained c uid in
  (0 < L -> 0 < O ->
     (0 < L - O + P ->
        r.1 = c /\ UID <$> r.2 = Some uid /\
        UI_DeviceLimit <$> r.2 = Some (L - O + P)) /\
     (L - O + P <= 0 -> 0 < P ->
        r.1 = c /\ UID <$> r.2 = Some uid /\
        UI_DeviceLimit <$> r.2 = Some P) /\
     (L - O + P <= 0 -> P <= 0 -> r.1 = c /\ r.2 = None)) /\
  (L = 0 \/ O = 0 ->
     UID <$> r.2 = Some uid /\ UI_DeviceLimit <$> r.2 = Some L) /\
  (O = 0 -> is_Some (LastReportOnline c !! uid) ->
     LastReportOnline r.1 = delete uid (LastReportOnline c)).

(** The number of sessions of [uid] in a reported list. *)
Definition sessions (uid : Z) (onlineUserList : list OnlineUser) : nat :=
  length (filter (fun user => OU_UID user = uid) onlineUserList).

(** The session-count mapping of a report: each id of the list with the
    number of its occurrences, and no other id. *)
Definition counts_of (onlineUserList : list OnlineUser) (m : gmap Z Z)
  : Prop :=
  forall uid : Z,
    m !! uid =
      if decide (sessions uid onlineUserList = 0%nat) then None
      else Some (Z.of_nat (sessions uid onlineUserList)).

(** A panel rule as [GetNodeRule] appends it. *)
Definition compiled_rule (r : NodeRuleItem) : DetectRule :=
  {| DR_ID := NR_ID r; DR_Pattern := {| expr := NR_Pattern r |} |}.

(** The report of one detection result, as [ReportIllegal] fills it. *)
Definition illegal_report (r : DetectResult) : Body :=
  BodyIllegalReport {| IR_RuleID := DT_RuleID r; IR_UID := DT_UID r;
                       IR_Reason := "XrayR cannot save reason" |}.

Section Statements.
Context `{Ext : External}.

(** The panel answers the request with a transported, successful
    envelope. *)
Definition answered (c : APIClient) (sent : list Request) (m : Method)
    (path : string) (body : Body) (response : Response) : Prop :=
  let '(res, err, _) := send c sent m path body in
  parseResponse c res path err = Ok response.

(** What [parseResponse] makes of the answer to a request sent after
    [sent]. *)
Definition verdict (c : APIClient) (sent : list Request) (req : Request)
  : result Response :=
  let '(res, err) := resty_Execute sent req in
  parseResponse c res (ReqPath req) err.

(** The requests [reqs], sent in this order after [sent], are each
    answered with a transported, successful envelope. *)
Fixpoint all_accepted (c : APIClient) (sent : list Request)
    (reqs : list Request) : Prop :=
  match reqs with
  | [] => True
  | req :: rest =>
      (exists response, verdict c sent req = Ok response) /\
      all_accepted c (sent ++ [req]) rest
  end.

(** The operations of the client, and a call of each with its arguments. *)
Inductive call :=
| CallGetNodeInfo
| CallGetUserList
| CallReportNodeStatus (nodeStatus : api_NodeStatus)
| CallReportNodeOnlineUsers (onlineUserList : list OnlineUser)
| CallReportUserTraffic (userTraffic : list api_UserTraffic)
| CallGetNodeRule
| CallReportIllegal (detectResultList : list DetectResult).

(** The operation segment of the path of a call. *)
Definition operation (k : call) : string :=
  match k with
  | CallGetNodeInfo => "node"
  | CallGetUserList => "userList"
  | CallReportNodeStatus _ => "nodeStatus"
  | CallReportNodeOnlineUsers _ => "nodeOnline"
  | CallReportUserTraffic _ => "userTraffic"
  | CallGetNodeRule => "nodeRule"
  | CallReportIllegal _ => "trigger"
  end.

(** The outcome of a call without the value it returns. *)
Definition forget {A : Type} (r : result A * APIClient * list Request)
  : result unit * APIClient * list Request :=
  match r with
  | (Ok _, c, sent) => (Ok tt, c, sent)
  | (Err e, c, sent) => (Err e, c, sent)
  | (Panicked p, c, sent) => (Panicked p, c, sent)
  end.

(** Runs a call on the client. *)
Definition perform (c : APIClient) (sent : list Request) (k : call)
  : result unit * APIClient * list Request :=
  match k with
  | CallGetNodeInfo => forget (GetNodeInfo c sent)
  | CallGetUserList => forget (GetUserList c sent)
  | CallReportNodeStatus nodeStatus => ReportNodeStatus c sent nodeStatus
  | CallReportNodeOnlineUsers l => ReportNodeOnlineUsers c sent l
  | CallReportUserTraffic l => ReportUserTraffic c sent l
  | CallGetNodeRule => forget (GetNodeRule c sent)
  | CallReportIllegal l => ReportIllegal c sent l
  end.

End Statements.

(** ** A stub panel

    A client and collaborators with fixed answers, on which the
    operations are run. *)
Module Sample.

Definition client (nodeType : string) (deviceLimit : Z) (online : gmap Z Z)
  : APIClient :=
  {| APIHost := "https://panel.example"; NodeID := 42; Key := "secret";
     NodeType := nodeType; EnableVless := false; EnableXTLS := false;
     SpeedLimit := 0%float; DeviceLimit := deviceLimit;
     LocalRuleList := [{| DR_ID := -1; DR_Pattern := {| expr := "torrent" |} |}];
     LastReportOnline := online |}.

Definition vmess (uid deviceLimit onlineCount : Z) : VMessUser :=
  {| VM_UID := uid; VM_VmessUID := "0b1c"; VM_SpeedLimit := 0;
     VM_DeviceLimit := deviceLimit; VM_OnlineCount := onlineCount |}.

Definition trojan (uid deviceLimit onlineCount : Z) : TrojanUser :=
  {| TJ_UID := uid; TJ_Password := "pw"; TJ_SpeedLimit := 0;
     TJ_DeviceLimit := deviceLimit; TJ_OnlineCount := onlineCount |}.

Definition ss (uid deviceLimit onlineCount : Z) : SSUser :=
  {| SS_UID := uid; SS_Password := "pw"; SS_SpeedLimit := 0;
     SS_DeviceLimit := deviceLimit; SS_OnlineCount := onlineCount |}.

Definition envelope (status : string) (data : RawMessage) : Response :=
  {| Status := status; Message := ""; Data := data |}.

(** Transports: every request answered 200 with the envelope; no answer
    at all; the request after [n] others refused with a 500. *)
Definition answers (r : Response)
  : list Request -> Request -> resty_Response * option string :=
  fun _ _ => ({| StatusCode := 200; RespBody := ""; Result := r |}, None).

Definition unreachable
  : list Request -> Request -> resty_Response * option string :=
  fun _ _ =>
    ({| StatusCode := 0; RespBody := ""; Result := envelope "" "" |},
     Some "connection refused").

Definition refuses_after (n : nat)
  : list Request -> Request -> resty_Response * option string :=
  fun sent _ =>
    if (length sent =? n)%nat then
      ({| StatusCode := 500; RespBody := "busy"; Result := envelope "" "" |},
       None)
    else
      ({| StatusCode := 200; RespBody := "";
          Result := envelope "success" "" |}, None).

(** The codec on the payloads of the stub: a payload is named by a word.
    In [two], the second record does not decode. *)
Definition panel
    (transport : list Request -> Request -> resty_Response * option string)
  : External :=
  {| json_array := fun raw =>
       if (raw =? "one")%string then Some ["u7"]
       else if (raw =? "two")%string then Some ["u7"; "broken"]
       else None;
     Unmarshal_VMessUser := fun raw =>
       if (raw =? "u7")%string then Some (Some (vmess 7 2 2)) else None;
     Unmarshal_TrojanUser := fun raw =>
       if (raw =? "u7")%string then Some (Some (trojan 7 2 2)) else None;
     Unmarshal_SSUser := fun raw =>
       if (raw =? "u7")%string then Some (Some (ss 7 2 2)) else None;
     Unmarshal_V2rayNodeInfo := fun _ => None;
     Unmarshal_ShadowsocksNodeInfo := fun _ => None;
     Unmarshal_TrojanNodeInfo := fun _ => None;
     Unmarshal_NodeRule := fun raw =>
       if (raw =? "allow")%string then
         Some {| Mode := "allow";
                 Rules := [{| NR_ID := 1; NR_Type := "reg";
                              NR_Pattern := "a+" |}] |}
       else if (raw =? "reject")%string then
         Some {| Mode := "reject";
                 Rules := [{| NR_ID := 1; NR_Type := "reg";
                              NR_Pattern := "a+" |};
                           {| NR_ID := 2; NR_Type := "regex";
                              NR_Pattern := "b+" |}] |}
       else if (raw =? "unclosed")%string then
         Some {| Mode := "reject";
                 Rules := [{| NR_ID := 3; NR_Type := "reg";
                              NR_Pattern := "(" |}] |}
       else None;
     Marshal_Response := fun r => Status r +:+ ":" +:+ Data r;
     Marshal_RawMessage := fun raw => raw;
     regexp_parses := fun str => negb (str =? "(")%string;
     resty_Execute := transport;
     time_Now_Unix := fun _ => 1700000000 |}.

End Sample.

(** ** Construction of the client *)

(** What a [bufio.Scanner] reads of an opened file: the lines it yields
    until [Scan] returns false, and whether it stopped on a read error
    ([Err() != nil]) and not at the end of the file. *)
Record ScannedFile := {
  Lines : list string;
  ScanFailed : bool
}.

Class FileSystem := {
  (** [os.Open]; [None] is a returned error *)
  os_Open : string -> option ScannedFile
}.

(** The ways the start-up code ends: a value, a panic, or [log.Fatalf],
    which ends the process with status 1. *)
Inductive startup (A : Type) :=
| Started (a : A)
| StartPanicked (p : panic)
| Exited (status : Z).
Arguments Started {A} a.
Arguments StartPanicked {A} p.
Arguments Exited {A} status.

(** Modelled from the spec: package api is not among the sources; the
    configuration carries the fields [New] reads. *)
Record Config := {
  C_APIHost : string;
  C_NodeID : Z;
  C_Key : string;
  C_NodeType : string;
  C_EnableVless : bool;
  C_EnableXTLS : bool;
  C_Timeout : Z;
  C_SpeedLimit : float;
  C_DeviceLimit : Z;
  C_RuleListPath : string
}.

Record ClientInfo := {
  CI_APIHost : string;
  CI_NodeID : Z;
  CI_Key : string;
  CI_NodeType : string
}.

(** The settings of the resty client the package touches; the timeout is
    a [time.Duration], in nanoseconds. *)
Record resty_Client := {
  RetryCount : Z;
  Timeout : Z;
  BaseURL : string;
  DebugMode : bool
}.

Definition time_Second : Z := 1000000000.

Section Construction.
Context `{Ext : External} `{FS : FileSystem}.

(** The scanning loop of [readLocalRuleList].  [regexp.MustCompile]
    returns no error, so the [Err] branch is never taken. *)
Fixpoint scanLocalRules (LocalRuleList : list DetectRule)
    (lines : list string) : startup (list DetectRule) :=
  match lines with
  | [] => Started LocalRuleList
  | text :: rest =>
      match MustCompile text with
      | Ok pattern =>
          scanLocalRules
            (LocalRuleList ++ [{| DR_ID := -1; DR_Pattern := pattern |}]) rest
      | Panicked p => StartPanicked p
      | Err _ => StartPanicked (RegexpMustCompile text)
      end
  end.

(** [readLocalRuleList].  The messages of [log.Printf] are not kept. *)
Definition readLocalRuleList (path : string) : startup (list DetectRule) :=
  if negb (path =? "")%string then
    match os_Open path with
    | None => Started []
    | Some file =>
        match scanLocalRules [] (Lines file) with
        | Started LocalRuleList =>
            if ScanFailed file then Exited 1 else Started LocalRuleList
        | StartPanicked p => StartPanicked p
        | Exited status => Exited status
        end
    end
  else Started [].

(** [New]: the client and the settings of its resty client.  The
    [OnError] hook only logs. *)
Definition New (apiConfig : Config) : startup (APIClient * resty_Client) :=
  let client :=
    {| RetryCount := 3;
       Timeout :=
         if 0 <? C_Timeout apiConfig
         then int_wrap (C_Timeout apiConfig * time_Second)
         else 5 * time_Second;
       BaseURL := C_APIHost apiConfig;
       DebugMode := false |} in
  match readLocalRuleList (C_RuleListPath apiConfig) with
  | Started localRuleList =>
      Started
        ({| APIHost := C_APIHost apiConfig; NodeID := C_NodeID apiConfig;
            Key := C_Key apiConfig; NodeType := C_NodeType apiConfig;
            EnableVless := C_EnableVless apiConfig;
            EnableXTLS := C_EnableXTLS apiConfig;
            SpeedLimit := C_SpeedLimit apiConfig;
            DeviceLimit := C_DeviceLimit apiConfig;
            LocalRuleList := localRuleList;
            LastReportOnline := ∅ |}, client)
  | StartPanicked p => StartPanicked p
  | Exited status => Exited status
  end.

End Construction.

Definition Describe (c : APIClient) : ClientInfo :=
  {| CI_APIHost := APIHost c; CI_NodeID := NodeID c; CI_Key := Key c;
     CI_NodeType := NodeType c |}.

(** [Debug], on the settings of the resty client. *)
Definition Debug (client : resty_Client) : resty_Client :=
  {| RetryCount := RetryCount client; Timeout := Timeout client;
     BaseURL := BaseURL client; DebugMode := true |}.

(** ** More vocabulary *)

(** A client that differs from [c] in the retained mapping at most, and
    there by deletions only. *)
Definition shrinks (c c' : APIClient) : Prop :=
  exists m, c' = set_LastReportOnline c m /\ m ⊆ LastReportOnline c.

(** A local rule: the sentinel id -1 and the pattern of a line. *)
Definition local_rule (line : string) : DetectRule :=
  {| DR_ID := -1; DR_Pattern := {| expr := line |} |}.

(** The method of the requests of a call, and the most requests it can
    send. *)
Definition method_of (k : call) : Method :=
  match k with
  | CallGetNodeInfo | CallGetUserList | CallGetNodeRule => GET
  | _ => POST
  end.

Definition max_requests (k : call) : nat :=
  match k with
  | CallReportIllegal detectResultList => length detectResultList
  | _ => 1%nat
  end.

(** The requests of the call [k]: from [sent] to [sent'] at most
    [max_requests k] requests were added, each with the method of the
    call and the key of the client, and with no body when it is a GET. *)
Definition sends (c : APIClient) (k : call) (sent sent' : list Request)
  : Prop :=
  exists reqs, sent' = sent ++ reqs /\
    (length reqs <= max_requests k)%nat /\
    Forall (fun req =>
              ReqMethod req = method_of k /\ HeaderKey req = Key c /\
              (method_of k = GET -> ReqBody req = NoBody)) reqs.

(** The ids of the decoded users of each variant, nil entries left out. *)
Definition vmess_ids (users : list (option VMessUser)) : list Z :=
  omap (fmap VM_UID) users.
Definition trojan_ids (users : list (option TrojanUser)) : list Z :=
  omap (fmap TJ_UID) users.
Definition ss_ids (users : list (option SSUser)) : list Z :=
  omap (fmap SS_UID) users.

(** Files of the stub: a list of two patterns, a list with an unclosed
    group, and a list whose reading breaks off. *)
Module SampleFiles.

Definition disk : FileSystem :=
  {| os_Open := fun path =>
       if (path =? "rules.txt")%string then
         Some {| Lines := ["torrent"; "porn"]; ScanFailed := false |}
       else if (path =? "broken.txt")%string then
         Some {| Lines := ["torrent"; "("; "porn"]; ScanFailed := true |}
       else if (path =? "cut.txt")%string then
         Some {| Lines := ["torrent"]; ScanFailed := true |}
       else None |}.

Definition config (nodeType path : string) (timeout : Z) : Config :=
  {| C_APIHost := "https://panel.example"; C_NodeID := 42;
     C_Key := "secret"; C_NodeType := nodeType; C_EnableVless := false;
     C_EnableXTLS := true; C_Timeout := timeout; C_SpeedLimit := 0%float;
     C_DeviceLimit := 0; C_RuleListPath := path |}.

End SampleFiles.

(** A stub panel that also decodes node payloads. *)
Module SampleNodes.

Definition panel
    (transport : list Request -> Request -> resty_Response * option string)
  : External :=
  {| json_array := @json_array (Sample.panel transport);
     Unmarshal_VMessUser := @Unmarshal_VMessUser (Sample.panel transport);
     Unmarshal_TrojanUser := @Unmarshal_TrojanUser (Sample.panel transport);
     Unmarshal_SSUser := @Unmarshal_SSUser (Sample.panel transport);
     Unmarshal_V2rayNodeInfo := fun raw =>
       if (raw =? "node")%string then
         Some {| V2_SpeedLimit := 100; V2_ClientLimit := 3; V2Port := 443;
                 V2AlterID := 0; V2Net := "tcp"; V2Type := "http";
                 V2Path := "/video"; V2Host := "cdn.example";
                 V2TLS := true |}
       else None;
     Unmarshal_ShadowsocksNodeInfo := fun raw =>
       if (raw =? "node")%string then
         Some {| SSN_SpeedLimit := 100; SSN_ClientLimit := 3;
                 SSN_Port := 8388; SSN_Method := "aes-256-gcm" |}
       else None;
     Unmarshal_TrojanNodeInfo := fun raw =>
       if (raw =? "node")%string then
         Some {| TJN_SpeedLimit := 100; TJN_ClientLimit := 3;
                 TrojanPort := 443 |}
       else None;
     Unmarshal_NodeRule := @Unmarshal_NodeRule (Sample.panel transport);
     Marshal_Response := @Marshal_Response (Sample.panel transport);
     Marshal_RawMessage := @Marshal_RawMessage (Sample.panel transport);
     regexp_parses := @regexp_parses (Sample.panel transport);
     resty_Execute := transport;
     time_Now_Unix := @time_Now_Unix (Sample.panel transport) |}.

End SampleNodes.

(** * Properties *)

(** ** Integers *)

Lemma int_wrap_id (z : Z) : is_int z -> int_wrap z = z.
Proof.
  unfold is_int, int_wrap, int_min, int_max. intros Hz.
  rewrite Z.mod_small; lia.
Qed.

Lemma int_candidate (L O P : Z) :
  is_int L -> is_int O -> 0 < L -> 0 < O -> is_int (L - O + P) ->
  int_add (int_sub L O) P = L - O + P.
Proof.
  unfold int_add, int_sub. intros HL HO HL0 HO0 HC.
  rewrite (int_wrap_id (L - O)).
  - by apply int_wrap_id.
  - unfold is_int, int_min, int_max in *. lia.
Qed.

(** ** The device-limit reconciliation *)

(** The three branches of one turn of the loop, once the base limit and
    the online count are compared with 0. *)
Ltac reconcile_branches L O P :=
  destruct (Z.ltb_spec 0 L), (Z.ltb_spec 0 O); cbn [andb];
  [ rewrite int_candidate by done;
    destruct (Z.ltb_spec 0 (L - O + P));
      [|destruct (Z.ltb_spec 0 P)];
      (split; [intros _ _; repeat split; intros; cbn; (done || lia)
              |split; intros; lia])
  | | | ];
  (destruct (Z.eqb_spec O 0); cbn [andb];
     [case_bool_decide|];
     (split; [lia|split; [intros _; by cbn|]]); intros ? ?; cbn;
     (done || lia)).

Lemma ParseV2rayUser_reconciled (c : APIClient) (user : VMessUser) :
  let L := base_limit c (VM_DeviceLimit user) in
  let O := VM_OnlineCount user in
  is_int L -> is_int O -> is_int (L - O + retained c (VM_UID user)) ->
  reconciled c (VM_UID user) L O (ParseV2rayUser c user).
Proof.
  intros L O HL HO HC. unfold reconciled, ParseV2rayUser.
  fold (base_limit c (VM_DeviceLimit user)). fold L. fold O.
  change (match LastReportOnline c !! VM_UID user with
          | Some v => v | None => 0 end) with (retained c (VM_UID user)).
  set (P := retained c (VM_UID user)) in *.
  reconcile_branches L O P.
Qed.

Lemma ParseTrojanUser_reconciled (c : APIClient) (user : TrojanUser) :
  let L := base_limit c (TJ_DeviceLimit user) in
  let O := TJ_OnlineCount user in
  is_int L -> is_int O -> is_int (L - O + retained c (TJ_UID user)) ->
  reconciled c (TJ_UID user) L O (ParseTrojanUser c user).
Proof.
  intros L O HL HO HC. unfold reconciled, ParseTrojanUser.
  fold (base_limit c (TJ_DeviceLimit user)). fold L. fold O.
  change (match LastReportOnline c !! TJ_UID user with
          | Some v => v | None => 0 end) with (retained c (TJ_UID user)).
  set (P := retained c (TJ_UID user)) in *.
  reconcile_branches L O P.
Qed.

(** C1.  One turn of the user loop of the V2ray and of the Trojan
    adapter, for a user with base device limit [L] (the override of the
    client when positive, else the payload's value), online count [O] and
    retained session count [P] (0 when the id has no entry).  When [L > 0]
    and [O > 0]: the record appended has device limit [L - O + P] when
    that is positive, else [P] when [P > 0], and else nothing is appended
    (the user is left out of the list); the retained state is not
    touched.  When [L = 0] or [O = 0] the record has device limit [L].
    When [O = 0] and the id has a retained entry, the entry is deleted.
    [L] and [O] are Go ints and [L - O + P] does not overflow. *)
Theorem device_limit_reconciliation
    (c : APIClient) (L O uid : Z) :
  is_int L -> is_int O -> is_int (L - O + retained c uid) ->
  (forall user : VMessUser,
     VM_UID user = uid -> base_limit c (VM_DeviceLimit user) = L ->
     VM_OnlineCount user = O ->
     reconciled c uid L O (ParseV2rayUser c user)) /\
  (forall user : TrojanUser,
     TJ_UID user = uid -> base_limit c (TJ_DeviceLimit user) = L ->
     TJ_OnlineCount user = O ->
     reconciled c uid L O (ParseTrojanUser c user)).
Proof.
  intros HL HO HC. split; intros user <- <- <-.
  - by apply ParseV2rayUser_reconciled.
  - by apply ParseTrojanUser_reconciled.
Qed.

(** Closes a range condition on concrete integers. *)
Ltac int_range :=
  unfold is_int, int_min, int_max; vm_compute; split; discriminate.

(** The spec's example [L = 5], [O = 6], [P = 3]: the effective limit of
    the V2ray user 7 is 2. *)
Lemma device_limit_reconciliation_witness :
  UI_DeviceLimit <$>
    (ParseV2rayUser (Sample.client "V2ray" 0 {[7 := 3]})
                    (Sample.vmess 7 5 6)).2 = Some 2.
Proof.
  destruct (device_limit_reconciliation
              (Sample.client "V2ray" 0 {[7 := 3]}) 5 6 7) as [Hv _];
    [int_range..|].
  destruct (Hv (Sample.vmess 7 5 6) eq_refl eq_refl eq_refl) as [Hpos _].
  destruct Hpos as [Hc _]; [lia..|].
  destruct Hc as (_ & _ & Hd); [by vm_compute|].
  exact Hd.
Defined.

(** The examples of the specification: with no retained sessions, a
    user at or over the limit is left out. *)
Example reconciliation_no_headroom :
  (ParseV2rayUser (Sample.client "V2ray" 0 ∅) (Sample.vmess 7 5 5)).2 = None /\
  (ParseTrojanUser (Sample.client "Trojan" 0 ∅) (Sample.trojan 7 3 5)).2 = None.
Proof. by vm_compute. Qed.

(** With no online session the limit passes through, and the retained
    entry of the user is deleted. *)
Example reconciliation_stale_entry :
  ParseV2rayUser (Sample.client "V2ray" 0 {[7 := 3; 8 := 1]})
                 (Sample.vmess 7 5 0) =
    (Sample.client "V2ray" 0 {[8 := 1]},
     Some {| UID := 7; Email := ""; Passwd := ""; UUID := "0b1c";
             UI_DeviceLimit := 5; UI_SpeedLimit := 0 |}).
Proof. by vm_compute. Qed.

(** Two sessions of user 7 are reported, then the user list is fetched
    with a limit of 2 and an online count of 2 for that user: the
    effective limit is 2. *)
Example report_then_fetch :
  let panel := Sample.panel (Sample.answers (Sample.envelope "success" "one")) in
  let r1 :=
    ReportNodeOnlineUsers (Ext := panel) (Sample.client "V2ray" 0 ∅) []
      [ {| OU_UID := 7; OU_IP := "10.0.0.1" |};
        {| OU_UID := 7; OU_IP := "10.0.0.2" |} ] in
  (GetUserList (Ext := panel) r1.1.2 r1.2).1.1 =
    Ok [ {| UID := 7; Email := ""; Passwd := ""; UUID := "0b1c";
            UI_DeviceLimit := 2; UI_SpeedLimit := 0 |} ].
Proof. by vm_compute. Qed.

(** ** The Shadowsocks adapter *)

(** C2.  The Shadowsocks adapter gives every user the device limit of
    the client as it is: the value of the payload is never used and no
    reconciliation runs.  With no override ([DeviceLimit = 0]) and a
    payload limit of 3, the record carries 0 where the base limit of the
    field-mapping policy is 3. *)
Theorem ss_device_limit_is_client_setting :
  (forall (c : APIClient) (user : SSUser),
     UI_DeviceLimit (ParseSSUser c user) = DeviceLimit c) /\
  UI_DeviceLimit
    (ParseSSUser (Sample.client "Shadowsocks" 0 ∅) (Sample.ss 7 3 0)) = 0 /\
  base_limit (Sample.client "Shadowsocks" 0 ∅)
             (SS_DeviceLimit (Sample.ss 7 3 0)) = 3.
Proof. by repeat split. Qed.

(** ** The envelope *)

Section Envelope.
Context `{Ext : External}.

Lemma parseResponse_transport_error c res path e :
  parseResponse c res path (Some e) = Err (RequestFailed (assembleURL c path) e).
Proof. done. Qed.

Lemma parseResponse_status_above_400 c res path :
  400 < StatusCode res ->
  parseResponse c res path None =
    Err (RequestFailedStatus (assembleURL c path) (RespBody res)).
Proof.
  intros H. unfold parseResponse.
  by destruct (Z.ltb_spec 400 (StatusCode res)); [|lia].
Qed.

Lemma parseResponse_not_success c res path :
  StatusCode res <= 400 -> Status (Result res) <> "success" ->
  parseResponse c res path None =
    Err (RetInvalid (Marshal_Response (Result res))).
Proof.
  intros H Hs. unfold parseResponse.
  destruct (Z.ltb_spec 400 (StatusCode res)); [lia|].
  by destruct (String.eqb_spec (Status (Result res)) "success").
Qed.

Lemma parseResponse_Ok c res path err response :
  parseResponse c res path err = Ok response <->
  err = None /\ StatusCode res <= 400 /\ Status (Result res) = "success" /\
  response = Result res.
Proof.
  unfold parseResponse. destruct err as [e|].
  { split; [done|]. by intros [? _]. }
  destruct (Z.ltb_spec 400 (StatusCode res)).
  { split; [done|]. intros (_ & ? & _). lia. }
  destruct (String.eqb_spec (Status (Result res)) "success"); cbn [negb].
  - split; [by intros [= <-]|]. by intros (_ & _ & _ & ->).
  - split; [done|]. by intros (_ & _ & ? & _).
Qed.

Lemma parseResponse_no_panic c res path err p :
  parseResponse c res path err <> Panicked p.
Proof.
  unfold parseResponse. destruct err; [done|].
  destruct (400 <? StatusCode res); [done|].
  by destruct (negb _).
Qed.

(** C5.  A response with status code exactly 400 and no transport error
    is not taken as a request failure: the test is [StatusCode > 400], so
    the call falls through to the envelope check, and what it returns is
    decided by the envelope alone, the envelope itself when its status is
    "success". *)
Theorem parseResponse_status_400 (c : APIClient) (body : string)
    (envelope : Response) (path : string) :
  parseResponse c
    {| StatusCode := 400; RespBody := body; Result := envelope |} path None =
    if (Status envelope =? "success")%string then Ok envelope
    else Err (RetInvalid (Marshal_Response envelope)).
Proof.
  unfold parseResponse; cbn.
  by destruct (Status envelope =? "success")%string.
Qed.

End Envelope.

(** ** Endpoints *)

Lemma not_supported_eqb (c : APIClient) :
  ~ supported c ->
  (NodeType c =? "V2ray")%string = false /\
  (NodeType c =? "Trojan")%string = false /\
  (NodeType c =? "Shadowsocks")%string = false.
Proof.
  unfold supported. intros H.
  repeat split; apply String.eqb_neq; tauto.
Qed.

(** Decides the [switch c.NodeType] of a path under [supported c]. *)
Ltac switch_node_type c :=
  destruct (String.eqb_spec (NodeType c) "V2ray");
    [|destruct (String.eqb_spec (NodeType c) "Trojan");
      [|destruct (String.eqb_spec (NodeType c) "Shadowsocks")]].

Ltac solve_path c :=
  switch_node_type c;
  [ exists "v2ray" | exists "trojan" | exists "ss" | unfold supported in *; tauto ];
  (split;
     [ match goal with H : NodeType c = _ |- _ => by rewrite H end
     | reflexivity ]).

Lemma GetNodeInfo_path_resolves : resolves GetNodeInfo_path "node".
Proof.
  intros c; split; intros H.
  - unfold GetNodeInfo_path. solve_path c.
  - unfold GetNodeInfo_path.
    by destruct (not_supported_eqb c H) as (-> & -> & ->).
Qed.

Lemma GetUserList_path_resolves : resolves GetUserList_path "userList".
Proof.
  intros c; split; intros H.
  - unfold GetUserList_path. solve_path c.
  - unfold GetUserList_path.
    by destruct (not_supported_eqb c H) as (-> & -> & ->).
Qed.

Lemma ReportNodeStatus_path_resolves :
  resolves ReportNodeStatus_path "nodeStatus".
Proof.
  intros c; split; intros H.
  - unfold ReportNodeStatus_path. solve_path c.
  - unfold ReportNodeStatus_path.
    by destruct (not_supported_eqb c H) as (-> & -> & ->).
Qed.

Lemma ReportNodeOnlineUsers_path_resolves :
  resolves ReportNodeOnlineUsers_path "nodeOnline".
Proof.
  intros c; split; intros H.
  - unfold ReportNodeOnlineUsers_path. solve_path c.
  - unfold ReportNodeOnlineUsers_path.
    by destruct (not_supported_eqb c H) as (-> & -> & ->).
Qed.

Lemma ReportUserTraffic_path_resolves :
  resolves ReportUserTraffic_path "userTraffic".
Proof.
  intros c; split; intros H.
  - unfold ReportUserTraffic_path. solve_path c.
  - unfold ReportUserTraffic_path.
    by destruct (not_supported_eqb c H) as (-> & -> & ->).
Qed.

Lemma GetNodeRule_path_resolves : resolves GetNodeRule_path "nodeRule".
Proof.
  intros c; split; intros H.
  - unfold GetNodeRule_path. solve_path c.
  - unfold GetNodeRule_path.
    by destruct (not_supported_eqb c H) as (-> & -> & ->).
Qed.

Lemma ReportIllegal_path_resolves : resolves ReportIllegal_path "trigger".
Proof.
  intros c; split; intros H.
  - unfold ReportIllegal_path. solve_path c.
  - unfold ReportIllegal_path.
    by destruct (not_supported_eqb c H) as (-> & -> & ->).
Qed.

(** ** The online report *)

Lemma sessions_snoc (uid : Z) (l : list OnlineUser) (user : OnlineUser) :
  sessions uid (l ++ [user]) =
    (sessions uid l + if decide (OU_UID user = uid) then 1 else 0)%nat.
Proof.
  unfold sessions. rewrite filter_app, length_app. f_equal.
  rewrite filter_cons, filter_nil. by case_decide.
Qed.

Lemma sessions_absent (uid : Z) (l : list OnlineUser) :
  (forall user, user ∈ l -> OU_UID user <> uid) -> sessions uid l = 0%nat.
Proof.
  unfold sessions. induction l as [|user l IH]; intros Hnot; [done|].
  rewrite filter_cons. case_decide as Hu.
  - exfalso. apply (Hnot user); [left|done].
  - apply IH. intros u Hin. apply Hnot. by right.
Qed.

Lemma sessions_le (uid : Z) (l : list OnlineUser) :
  (sessions uid l <= length l)%nat.
Proof. apply length_filter. Qed.

Lemma countOnlineUser_counts (seen : list OnlineUser) (m : gmap Z Z)
    (user : OnlineUser) :
  Z.of_nat (length seen) < int_max ->
  counts_of seen m -> counts_of (seen ++ [user]) (countOnlineUser m user).
Proof.
  intros Hlen Hm uid. rewrite sessions_snoc. unfold countOnlineUser.
  pose proof (sessions_le (OU_UID user) seen) as Hle.
  destruct (decide (OU_UID user = uid)) as [<-|Hne].
  - rewrite (Hm (OU_UID user)).
    destruct (decide (sessions (OU_UID user) seen = 0%nat)) as [->|Hn].
    + by rewrite lookup_insert_eq.
    + rewrite lookup_insert_eq. case_decide; [lia|]. f_equal.
      unfold int_add. rewrite int_wrap_id.
      * lia.
      * unfold is_int, int_min, int_max in *. lia.
  - rewrite Nat.add_0_r, <- (Hm uid).
    by destruct (m !! OU_UID user); rewrite lookup_insert_ne.
Qed.

Lemma fold_countOnlineUser_counts (l seen : list OnlineUser) (m : gmap Z Z) :
  Z.of_nat (length (seen ++ l)) <= int_max ->
  counts_of seen m -> counts_of (seen ++ l) (fold_left countOnlineUser l m).
Proof.
  revert seen m. induction l as [|user l IH]; intros seen m Hlen Hm.
  - by rewrite app_nil_r.
  - replace (seen ++ user :: l) with ((seen ++ [user]) ++ l) in *
      by (by rewrite <- app_assoc).
    cbn [fold_left]. apply IH.
    + done.
    + apply countOnlineUser_counts; [|done].
      rewrite !length_app in Hlen. cbn in Hlen. lia.
Qed.

Lemma counts_of_report (l : list OnlineUser) :
  Z.of_nat (length l) <= int_max ->
  counts_of l (fold_left countOnlineUser l ∅).
Proof.
  intros Hlen. apply (fold_countOnlineUser_counts l [] ∅); [done|].
  intros uid. by rewrite lookup_empty.
Qed.

Section Reports.
Context `{Ext : External}.

(** Under a known node type the report stores the new mapping and sends
    one request, whatever the answer. *)
Lemma ReportNodeOnlineUsers_effect (c : APIClient) (sent : list Request)
    (l : list OnlineUser) :
  supported c ->
  exists req,
    (ReportNodeOnlineUsers c sent l).1.2 =
      set_LastReportOnline c (fold_left countOnlineUser l ∅) /\
    (ReportNodeOnlineUsers c sent l).2 = (sent ++ [req]) /\
    ReqMethod req = POST /\
    (forall e, (ReportNodeOnlineUsers c sent l).1.1 = Err e ->
       verdict (set_LastReportOnline c (fold_left countOnlineUser l ∅))
               sent req = Err e).
Proof.
  intros Hs. unfold ReportNodeOnlineUsers.
  destruct (proj1 (ReportNodeOnlineUsers_path_resolves c) Hs)
    as (seg & _ & ->).
  unfold send, verdict.
  set (c1 := set_LastReportOnline c _).
  set (req := createCommonRequest c1 sent POST _ _).
  exists req. destruct (resty_Execute sent req) as [res err] eqn:Hx.
  change (ReqPath req) with (spec_endpoint seg "nodeOnline" (NodeID c)).
  destruct (parseResponse c1 res _ err) eqn:Hp; cbn;
    repeat split; congruence.
Qed.

(** C3.  For a client of a known node type, after the online report the
    retained mapping is the mapping of the reported list: every user id
    maps to the number of its occurrences in the list, and an id that
    does not occur in the list has no entry, whatever the mapping held
    before.  The list has at most [int_max] entries, as every Go slice. *)
Theorem online_report_replaces_counts (c : APIClient) (sent : list Request)
    (onlineUserList : list OnlineUser) :
  supported c ->
  Z.of_nat (length onlineUserList) <= int_max ->
  counts_of onlineUserList
    (LastReportOnline (ReportNodeOnlineUsers c sent onlineUserList).1.2) /\
  (forall uid : Z,
     (forall user, user ∈ onlineUserList -> OU_UID user <> uid) ->
     LastReportOnline (ReportNodeOnlineUsers c sent onlineUserList).1.2
       !! uid = None).
Proof.
  intros Hs Hlen.
  destruct (ReportNodeOnlineUsers_effect c sent onlineUserList Hs)
    as (req & -> & _).
  cbn. pose proof (counts_of_report onlineUserList Hlen) as Hc.
  split; [done|]. intros uid Hnot. rewrite (Hc uid).
  by rewrite (sessions_absent uid onlineUserList Hnot).
Qed.

(** C10.  For a client of a known node type, when the online report
    returns an error, the request was sent and refused (the error is the
    one [parseResponse] makes of its answer), and the retained mapping is
    nevertheless the mapping of the reported list: the assignment comes
    before the request and nothing restores the previous mapping. *)
Theorem online_report_state_survives_failure (c : APIClient)
    (sent : list Request) (onlineUserList : list OnlineUser) (e : error) :
  supported c ->
  Z.of_nat (length onlineUserList) <= int_max ->
  (ReportNodeOnlineUsers c sent onlineUserList).1.1 = Err e ->
  counts_of onlineUserList
    (LastReportOnline (ReportNodeOnlineUsers c sent onlineUserList).1.2) /\
  exists req,
    (ReportNodeOnlineUsers c sent onlineUserList).2 = (sent ++ [req]) /\
    verdict (ReportNodeOnlineUsers c sent onlineUserList).1.2 sent req
      = Err e.
Proof.
  intros Hs Hlen He.
  destruct (ReportNodeOnlineUsers_effect c sent onlineUserList Hs)
    as (req & Hc & Hsent & _ & Hv).
  rewrite Hc. split.
  - cbn. by apply counts_of_report.
  - exists req. split; [done|]. by apply Hv.
Qed.

End Reports.

(** Two sessions of user 7 and one of user 8. *)
Lemma online_report_replaces_counts_witness :
  let c1 :=
    (ReportNodeOnlineUsers
       (Ext := Sample.panel (Sample.answers (Sample.envelope "success" "")))
       (Sample.client "V2ray" 0 {[9 := 4]}) []
       [ {| OU_UID := 7; OU_IP := "10.0.0.1" |};
         {| OU_UID := 8; OU_IP := "10.0.0.2" |};
         {| OU_UID := 7; OU_IP := "10.0.0.3" |} ]).1.2 in
  LastReportOnline c1 !! 7 = Some 2 /\ LastReportOnline c1 !! 9 = None.
Proof.
  destruct (online_report_replaces_counts
              (Ext := Sample.panel (Sample.answers (Sample.envelope "success" "")))
              (Sample.client "V2ray" 0 {[9 := 4]}) []
              [ {| OU_UID := 7; OU_IP := "10.0.0.1" |};
                {| OU_UID := 8; OU_IP := "10.0.0.2" |};
                {| OU_UID := 7; OU_IP := "10.0.0.3" |} ])
    as [Hc Ha].
  - by left.
  - by vm_compute.
  - split; [exact (Hc 7)|]. apply Ha.
    intros user Hin Hu. revert Hin. rewrite !elem_of_cons, elem_of_nil.
    intros [->|[->|[->|[]]]]; discriminate Hu.
Defined.

(** The panel cannot be reached: the report fails and the mapping is the
    new one all the same. *)
Lemma online_report_state_survives_failure_witness :
  let r :=
    ReportNodeOnlineUsers (Ext := Sample.panel Sample.unreachable)
      (Sample.client "Trojan" 0 {[9 := 4]}) []
      [ {| OU_UID := 7; OU_IP := "10.0.0.1" |};
        {| OU_UID := 7; OU_IP := "10.0.0.3" |} ] in
  r.1.1 = Err (RequestFailed "https://panel.example/api/trojan/v1/nodeOnline/42"
                 "connection refused") /\
  LastReportOnline r.1.2 !! 7 = Some 2 /\
  LastReportOnline r.1.2 !! 9 = None.
Proof.
  destruct (online_report_state_survives_failure
              (Ext := Sample.panel Sample.unreachable)
              (Sample.client "Trojan" 0 {[9 := 4]}) []
              [ {| OU_UID := 7; OU_IP := "10.0.0.1" |};
                {| OU_UID := 7; OU_IP := "10.0.0.3" |} ]
              (RequestFailed
                 "https://panel.example/api/trojan/v1/nodeOnline/42"
                 "connection refused"))
    as [Hc _].
  - right; by left.
  - by vm_compute.
  - by vm_compute.
  - split; [by vm_compute|]. split; [exact (Hc 7)|exact (Hc 9)].
Defined.

(** ** Rules *)

Section Rules.
Context `{Ext : External}.

Lemma appendPanelRules_all_parse (rules : list NodeRuleItem)
    (ruleList : list DetectRule) :
  (forall r, r ∈ rules -> NR_Type r = "reg" ->
     regexp_parses (NR_Pattern r) = true) ->
  appendPanelRules ruleList rules =
    Ok (ruleList ++ map compiled_rule
                      (filter (fun r => NR_Type r = "reg") rules)).
Proof.
  revert ruleList. induction rules as [|r rules IH]; intros ruleList Hall.
  - by rewrite app_nil_r.
  - cbn [appendPanelRules]. rewrite filter_cons.
    destruct (String.eqb_spec (NR_Type r) "reg") as [Ht|Ht].
    + unfold MustCompile. rewrite (Hall r) by (done || left).
      rewrite decide_True by done.
      rewrite IH by (intros; apply Hall; [by right|done]).
      by rewrite <- app_assoc.
    + rewrite decide_False by done.
      apply IH. intros; apply Hall; [by right|done].
Qed.

Lemma appendPanelRules_panics (rules : list NodeRuleItem)
    (ruleList : list DetectRule) (bad : NodeRuleItem) :
  bad ∈ rules -> NR_Type bad = "reg" ->
  regexp_parses (NR_Pattern bad) = false ->
  exists r, r ∈ rules /\ NR_Type r = "reg" /\
    regexp_parses (NR_Pattern r) = false /\
    appendPanelRules ruleList rules =
      Panicked (RegexpMustCompile (NR_Pattern r)).
Proof.
  revert ruleList. induction rules as [|r rules IH]; intros ruleList Hin Ht Hp.
  - by apply elem_of_nil in Hin.
  - cbn [appendPanelRules]. unfold MustCompile.
    destruct (String.eqb_spec (NR_Type r) "reg") as [Hr|Hr];
      [destruct (regexp_parses (NR_Pattern r)) eqn:Hr'|].
    + apply elem_of_cons in Hin as [->|Hin]; [congruence|].
      destruct (IH (ruleList ++ [{| DR_ID := NR_ID r;
                                    DR_Pattern := {| expr := NR_Pattern r |} |}])
                  Hin Ht Hp) as (r' & ? & ? & ? & ?).
      exists r'. repeat split; try done. by right.
    + exists r. repeat split; try done. by left.
    + apply elem_of_cons in Hin as [->|Hin]; [congruence|].
      destruct (IH ruleList Hin Ht Hp) as (r' & ? & ? & ? & ?).
      exists r'. repeat split; try done. by right.
Qed.

(** What [GetNodeRule] returns once the panel has answered and the
    descriptor is decoded. *)
Lemma GetNodeRule_answered (c : APIClient) (sent : list Request)
    (path : string) (response : Response) (d : NodeRule) :
  GetNodeRule_path c = Some path ->
  answered c sent GET path NoBody response ->
  Unmarshal_NodeRule (Data response) = Some d ->
  (GetNodeRule c sent).1.1 =
    if negb (Mode d =? "reject")%string then Ok (LocalRuleList c)
    else appendPanelRules (LocalRuleList c) (Rules d).
Proof.
  intros Hpath Hans Hd. unfold GetNodeRule, answered in *. rewrite Hpath.
  destruct (send c sent GET path NoBody) as [[res err] sent1].
  rewrite Hans, Hd. by destruct (negb _).
Qed.

(** C4, as the code has it.  When the panel answers the rule fetch with
    a rule set in "reject" mode that holds a rule of type "reg" whose
    pattern does not compile, the fetch panics in [regexp.MustCompile],
    on the pattern of such a rule: it returns neither an error nor a
    rule list. *)
Theorem rule_fetch_panics_on_bad_pattern (c : APIClient)
    (sent : list Request) (path : string) (response : Response)
    (d : NodeRule) (bad : NodeRuleItem) :
  GetNodeRule_path c = Some path ->
  answered c sent GET path NoBody response ->
  Unmarshal_NodeRule (Data response) = Some d ->
  Mode d = "reject" ->
  bad ∈ Rules d -> NR_Type bad = "reg" ->
  regexp_parses (NR_Pattern bad) = false ->
  exists r, r ∈ Rules d /\ NR_Type r = "reg" /\
    regexp_parses (NR_Pattern r) = false /\
    (GetNodeRule c sent).1.1 = Panicked (RegexpMustCompile (NR_Pattern r)).
Proof.
  intros Hpath Hans Hd Hmode Hin Ht Hp.
  rewrite (GetNodeRule_answered c sent path response d) by done.
  rewrite Hmode. cbn [String.eqb negb].
  replace ("reject" =? "reject")%string with true by done. cbn [negb].
  by apply (appendPanelRules_panics _ _ bad).
Qed.

(** C6, as the code has it.  Once the panel has answered the rule fetch
    and the descriptor is decoded: when its mode is not "reject" the
    fetch returns the local rule list as it is; when its mode is
    "reject" and the patterns of its rules of type "reg" compile, the
    fetch returns the local list followed by the rules of type "reg", in
    the order of the panel, each with its id and its compiled pattern;
    the rules of any other type are left out. *)
Theorem rule_fetch_aggregates_reg_rules (c : APIClient)
    (sent : list Request) (path : string) (response : Response)
    (d : NodeRule) :
  GetNodeRule_path c = Some path ->
  answered c sent GET path NoBody response ->
  Unmarshal_NodeRule (Data response) = Some d ->
  (Mode d <> "reject" -> (GetNodeRule c sent).1.1 = Ok (LocalRuleList c)) /\
  (Mode d = "reject" ->
   (forall r, r ∈ Rules d -> NR_Type r = "reg" ->
      regexp_parses (NR_Pattern r) = true) ->
   (GetNodeRule c sent).1.1 =
     Ok (LocalRuleList c ++
         map compiled_rule (filter (fun r => NR_Type r = "reg") (Rules d)))).
Proof.
  intros Hpath Hans Hd.
  rewrite (GetNodeRule_answered c sent path response d) by done.
  destruct (String.eqb_spec (Mode d) "reject") as [Hm|Hm]; cbn [negb].
  - split; [done|]. intros _ Hall. by apply appendPanelRules_all_parse.
  - by split.
Qed.

End Rules.

(** A rule set in "reject" mode whose one rule, of type "reg", has the
    pattern of an unclosed group: the fetch panics. *)
Lemma rule_fetch_returns_no_compile_error :
  (GetNodeRule
     (Ext := Sample.panel (Sample.answers (Sample.envelope "success" "unclosed")))
     (Sample.client "V2ray" 0 ∅) []).1.1 =
    Panicked (RegexpMustCompile "(").
Proof. by vm_compute. Qed.

Lemma rule_fetch_panics_on_bad_pattern_witness :
  exists r,
    (GetNodeRule
       (Ext := Sample.panel (Sample.answers (Sample.envelope "success" "unclosed")))
       (Sample.client "Trojan" 0 ∅) []).1.1 =
      Panicked (RegexpMustCompile (NR_Pattern r)).
Proof.
  destruct (rule_fetch_panics_on_bad_pattern
              (Ext := Sample.panel
                        (Sample.answers (Sample.envelope "success" "unclosed")))
              (Sample.client "Trojan" 0 ∅) [] "/api/trojan/v1/nodeRule/42"
              (Sample.envelope "success" "unclosed")
              {| Mode := "reject";
                 Rules := [{| NR_ID := 3; NR_Type := "reg";
                              NR_Pattern := "(" |}] |}
              {| NR_ID := 3; NR_Type := "reg"; NR_Pattern := "(" |})
    as (r & _ & _ & _ & Hr); try by vm_compute.
  - by left.
  - by exists r.
Defined.

(** A rule set in "reject" mode with a rule of type "reg" and a rule of
    type "regex": the first is appended, the second is left out. *)
Lemma rule_fetch_skips_type_regex :
  (GetNodeRule
     (Ext := Sample.panel (Sample.answers (Sample.envelope "success" "reject")))
     (Sample.client "V2ray" 0 ∅) []).1.1 =
    Ok [ {| DR_ID := -1; DR_Pattern := {| expr := "torrent" |} |};
         {| DR_ID := 1; DR_Pattern := {| expr := "a+" |} |} ].
Proof. by vm_compute. Qed.

Lemma rule_fetch_aggregates_reg_rules_witness :
  (GetNodeRule
     (Ext := Sample.panel (Sample.answers (Sample.envelope "success" "allow")))
     (Sample.client "Shadowsocks" 0 ∅) []).1.1 =
    Ok [ {| DR_ID := -1; DR_Pattern := {| expr := "torrent" |} |} ] /\
  (GetNodeRule
     (Ext := Sample.panel (Sample.answers (Sample.envelope "success" "reject")))
     (Sample.client "Shadowsocks" 0 ∅) []).1.1 =
    Ok [ {| DR_ID := -1; DR_Pattern := {| expr := "torrent" |} |};
         {| DR_ID := 1; DR_Pattern := {| expr := "a+" |} |} ].
Proof.
  split.
  - apply (rule_fetch_aggregates_reg_rules
             (Ext := Sample.panel
                       (Sample.answers (Sample.envelope "success" "allow")))
             (Sample.client "Shadowsocks" 0 ∅) [] "/api/ss/v1/nodeRule/42"
             (Sample.envelope "success" "allow")
             {| Mode := "allow";
                Rules := [{| NR_ID := 1; NR_Type := "reg";
                             NR_Pattern := "a+" |}] |});
      by vm_compute.
  - apply (rule_fetch_aggregates_reg_rules
             (Ext := Sample.panel
                       (Sample.answers (Sample.envelope "success" "reject")))
             (Sample.client "Shadowsocks" 0 ∅) [] "/api/ss/v1/nodeRule/42"
             (Sample.envelope "success" "reject")
             {| Mode := "reject";
                Rules := [{| NR_ID := 1; NR_Type := "reg";
                             NR_Pattern := "a+" |};
                          {| NR_ID := 2; NR_Type := "regex";
                             NR_Pattern := "b+" |}] |});
      try by vm_compute.
    intros r Hin _. cbn in Hin. rewrite !elem_of_cons, elem_of_nil in Hin.
    by destruct Hin as [->|[->|[]]].
Defined.

(** ** Decoding of the user list *)

Section Decoding.
Context `{Ext : External}.

Lemma Unmarshal_slice_bad_element {A : Type}
    (element : RawMessage -> option (option A)) (raw : RawMessage)
    (elements : list RawMessage) (bad : RawMessage) :
  json_array raw = Some elements -> bad ∈ elements -> element bad = None ->
  Unmarshal_slice element raw = None.
Proof.
  intros Harr Hin Hbad. unfold Unmarshal_slice. rewrite Harr.
  apply mapM_None_2, Exists_exists. by exists bad.
Qed.

(** What [GetUserList] returns once the panel has answered, when the
    adapter of the node type returns an error. *)
Lemma GetUserList_adapter_error (c : APIClient) (sent : list Request)
    (path : string) (response : Response) (e : error) :
  GetUserList_path c = Some path ->
  answered c sent GET path NoBody response ->
  (NodeType c = "V2ray" ->
     ParseV2rayUserListResponse c (Data response) = (Err e, c)) ->
  (NodeType c = "Trojan" ->
     ParseTrojanUserListResponse c (Data response) = (Err e, c)) ->
  (NodeType c = "Shadowsocks" ->
     ParseSSUserListResponse c (Data response) = (Err e, c)) ->
  (GetUserList c sent).1 =
    (Err (ParseUserListFailed (Marshal_RawMessage (Data response))), c).
Proof.
  intros Hpath Hans Hv Ht Hs. unfold GetUserList, answered in *.
  rewrite Hpath. destruct (send c sent GET path NoBody) as [[res err] sent1].
  rewrite Hans. switch_node_type c.
  - by rewrite Hv.
  - by rewrite Ht.
  - by rewrite Hs.
  - unfold GetUserList_path in Hpath.
    by rewrite !(proj2 (String.eqb_neq _ _)) in Hpath.
Qed.

(** C7.  Once the panel has answered the user-list fetch with a payload
    that is an array, if one element of the array does not decode into
    the user record of the node type, the adapter returns its decoding
    error and the fetch returns an error: no list is returned, whatever
    the other elements are, and the client is as before.  This holds for
    the three node types. *)
Theorem user_list_decoding_is_atomic (c : APIClient) (sent : list Request)
    (path : string) (response : Response) (elements : list RawMessage)
    (bad : RawMessage) :
  GetUserList_path c = Some path ->
  answered c sent GET path NoBody response ->
  json_array (Data response) = Some elements ->
  bad ∈ elements ->
  (NodeType c = "V2ray" -> Unmarshal_VMessUser bad = None) ->
  (NodeType c = "Trojan" -> Unmarshal_TrojanUser bad = None) ->
  (NodeType c = "Shadowsocks" -> Unmarshal_SSUser bad = None) ->
  (NodeType c = "V2ray" ->
     ParseV2rayUserListResponse c (Data response) =
       (Err (UnmarshalFailed "json.RawMessage"), c)) /\
  (NodeType c = "Trojan" ->
     ParseTrojanUserListResponse c (Data response) =
       (Err (UnmarshalFailed "json.RawMessage"), c)) /\
  (NodeType c = "Shadowsocks" ->
     ParseSSUserListResponse c (Data response) =
       (Err (UnmarshalFailed "json.RawMessage"), c)) /\
  (GetUserList c sent).1 =
    (Err (ParseUserListFailed (Marshal_RawMessage (Data response))), c).
Proof.
  intros Hpath Hans Harr Hin Hv Ht Hs.
  assert (NodeType c = "V2ray" ->
          ParseV2rayUserListResponse c (Data response) =
            (Err (UnmarshalFailed "json.RawMessage"), c)) as Hv'.
  { intros Hn. unfold ParseV2rayUserListResponse.
    by rewrite (Unmarshal_slice_bad_element _ _ elements bad) by auto. }
  assert (NodeType c = "Trojan" ->
          ParseTrojanUserListResponse c (Data response) =
            (Err (UnmarshalFailed "json.RawMessage"), c)) as Ht'.
  { intros Hn. unfold ParseTrojanUserListResponse.
    by rewrite (Unmarshal_slice_bad_element _ _ elements bad) by auto. }
  assert (NodeType c = "Shadowsocks" ->
          ParseSSUserListResponse c (Data response) =
            (Err (UnmarshalFailed "json.RawMessage"), c)) as Hs'.
  { intros Hn. unfold ParseSSUserListResponse.
    by rewrite (Unmarshal_slice_bad_element _ _ elements bad) by auto. }
  repeat split; try done.
  by apply (GetUserList_adapter_error c sent path response
              (UnmarshalFailed "json.RawMessage")).
Qed.

End Decoding.

(** A payload of two records, the second of which does not decode. *)
Lemma user_list_decoding_is_atomic_witness :
  (GetUserList
     (Ext := Sample.panel (Sample.answers (Sample.envelope "success" "two")))
     (Sample.client "V2ray" 0 ∅) []).1 =
    (Err (ParseUserListFailed "two"), Sample.client "V2ray" 0 ∅).
Proof.
  apply (user_list_decoding_is_atomic
           (Ext := Sample.panel
                     (Sample.answers (Sample.envelope "success" "two")))
           (Sample.client "V2ray" 0 ∅) [] "/api/v2ray/v1/userList/42"
           (Sample.envelope "success" "two") ["u7"; "broken"] "broken");
    try by vm_compute.
  right; by left.
Defined.

(** ** Violation reports *)

Section Violations.
Context `{Ext : External}.

(** The loop sends the reports of a prefix of the list, one request
    each, in order; it stops after all of them, or at the first request
    that is not accepted, with the error of that request. *)
Lemma reportIllegalResults_run (c : APIClient) (path : string)
    (detectResultList : list DetectResult) (sent : list Request) :
  exists (n : nat) (reqs : list Request),
    (reportIllegalResults c sent path detectResultList).2 = sent ++ reqs /\
    map ReqBody reqs = map illegal_report (take n detectResultList) /\
    Forall (fun req => ReqMethod req = POST /\ ReqPath req = path) reqs /\
    (((reportIllegalResults c sent path detectResultList).1 = Ok tt /\
      n = length detectResultList /\ all_accepted c sent reqs) \/
     (exists e before last,
        (reportIllegalResults c sent path detectResultList).1 = Err e /\
        reqs = before ++ [last] /\ all_accepted c sent before /\
        verdict c (sent ++ before) last = Err e)).
Proof.
  revert sent. induction detectResultList as [|r rest IH]; intros sent.
  - exists 0%nat, []. rewrite app_nil_r.
    split; [done|]. split; [done|]. split; [done|]. by left.
  - cbn [reportIllegalResults]. unfold send.
    set (req := createCommonRequest c sent POST path _).
    destruct (resty_Execute sent req) as [res err] eqn:Hx.
    assert (verdict c sent req = parseResponse c res path err) as Hv.
    { unfold verdict. by rewrite Hx. }
    destruct (parseResponse c res path err) as [response|e|p] eqn:Hp.
    + destruct (IH (sent ++ [req])) as (n & reqs & Hsent & Hbody & Hall & Hr).
      exists (S n), (req :: reqs). rewrite Hsent, <- app_assoc.
      split; [done|]. split; [by cbn; rewrite Hbody|].
      split; [by constructor|].
      destruct Hr as [(Hok & -> & Hacc)
                     |(e & before & last & He & -> & Hacc & Hl)].
      * left. split; [done|]. split; [done|].
        split; [by exists response|done].
      * right. exists e, (req :: before), last.
        split; [done|]. split; [done|].
        split; [split; [by exists response|done]|].
        by rewrite <- app_assoc in Hl.
    + exists 1%nat, [req].
      split; [done|]. split; [done|]. split; [by constructor|].
      right. exists e, [], req. rewrite app_nil_r. by repeat split.
    + by apply parseResponse_no_panic in Hp.
Qed.

(** C9.  For a client of a known node type, the violation report sends
    one request per result, each with the report of that result, in the
    order of the list.  Either every result was sent and accepted, and
    the call returns no error; or the call returns an error, which is
    the error of the last request sent, every request before it was
    accepted, and the results after it were not sent.  The requests sent
    stay sent, and the client is unchanged. *)
Theorem violation_reports_stop_at_first_error (c : APIClient)
    (sent : list Request) (detectResultList : list DetectResult) :
  supported c ->
  (ReportIllegal c sent detectResultList).1.2 = c /\
  exists (n : nat) (reqs : list Request),
    (ReportIllegal c sent detectResultList).2 = sent ++ reqs /\
    map ReqBody reqs = map illegal_report (take n detectResultList) /\
    (((ReportIllegal c sent detectResultList).1.1 = Ok tt /\
      n = length detectResultList /\ all_accepted c sent reqs) \/
     (exists e before last,
        (ReportIllegal c sent detectResultList).1.1 = Err e /\
        reqs = before ++ [last] /\ all_accepted c sent before /\
        verdict c (sent ++ before) last = Err e)).
Proof.
  intros Hs. unfold ReportIllegal.
  destruct (proj1 (ReportIllegal_path_resolves c) Hs) as (seg & _ & ->).
  destruct (reportIllegalResults_run c
              (spec_endpoint seg "trigger" (NodeID c)) detectResultList sent)
    as (n & reqs & Hsent & Hbody & _ & Hr).
  destruct (reportIllegalResults c sent _ detectResultList) as [r sent1].
  split; [done|]. by exists n, reqs.
Qed.

End Violations.

(** Three results, the panel refusing the second request: two requests
    are sent, the call returns the error of the second, and the third
    result is not reported. *)
Lemma violation_reports_stop_at_first_error_witness :
  let r :=
    ReportIllegal (Ext := Sample.panel (Sample.refuses_after 1))
      (Sample.client "V2ray" 0 ∅) []
      [ {| DT_UID := 7; DT_RuleID := 1 |};
        {| DT_UID := 8; DT_RuleID := 1 |};
        {| DT_UID := 9; DT_RuleID := 2 |} ] in
  r.1.1 = Err (RequestFailedStatus
                 "https://panel.example/api/v2ray/v1/trigger/42" "busy") /\
  map ReqBody r.2 =
    [ illegal_report {| DT_UID := 7; DT_RuleID := 1 |};
      illegal_report {| DT_UID := 8; DT_RuleID := 1 |} ] /\
  r.1.2 = Sample.client "V2ray" 0 ∅.
Proof.
  destruct (violation_reports_stop_at_first_error
              (Ext := Sample.panel (Sample.refuses_after 1))
              (Sample.client "V2ray" 0 ∅) []
              [ {| DT_UID := 7; DT_RuleID := 1 |};
                {| DT_UID := 8; DT_RuleID := 1 |};
                {| DT_UID := 9; DT_RuleID := 2 |} ]) as [Hc _].
  - by left.
  - split; [by vm_compute|]. split; [by vm_compute|exact Hc].
Defined.

(** ** The dispatch on the node type *)

Section Dispatch.
Context `{Ext : External}.

Lemma issues_on_one (path : string) (sent : list Request) (req : Request) :
  ReqPath req = path -> issues_on path sent (sent ++ [req]).
Proof. intros H. exists [req]. split; [done|]. by constructor. Qed.

(** An operation that sends one request on its path, whatever follows. *)
Ltac one_request :=
  unfold send;
  repeat case_match; simplify_eq; cbn;
  by apply issues_on_one.

Lemma GetNodeInfo_issues (c : APIClient) (sent : list Request) :
  supported c ->
  exists segment, protocolSegment (NodeType c) = Some segment /\
    issues_on (spec_endpoint segment "node" (NodeID c)) sent
              (GetNodeInfo c sent).2.
Proof.
  intros Hs. unfold GetNodeInfo.
  destruct (proj1 (GetNodeInfo_path_resolves c) Hs) as (seg & Hseg & ->).
  exists seg. split; [done|]. one_request.
Qed.

Lemma GetUserList_issues (c : APIClient) (sent : list Request) :
  supported c ->
  exists segment, protocolSegment (NodeType c) = Some segment /\
    issues_on (spec_endpoint segment "userList" (NodeID c)) sent
              (GetUserList c sent).2.
Proof.
  intros Hs. unfold GetUserList.
  destruct (proj1 (GetUserList_path_resolves c) Hs) as (seg & Hseg & ->).
  exists seg. split; [done|]. one_request.
Qed.

Lemma ReportNodeStatus_issues (c : APIClient) (sent : list Request)
    (nodeStatus : api_NodeStatus) :
  supported c ->
  exists segment, protocolSegment (NodeType c) = Some segment /\
    issues_on (spec_endpoint segment "nodeStatus" (NodeID c)) sent
              (ReportNodeStatus c sent nodeStatus).2.
Proof.
  intros Hs. unfold ReportNodeStatus.
  destruct (proj1 (ReportNodeStatus_path_resolves c) Hs) as (seg & Hseg & ->).
  exists seg. split; [done|]. one_request.
Qed.

Lemma ReportNodeOnlineUsers_issues (c : APIClient) (sent : list Request)
    (onlineUserList : list OnlineUser) :
  supported c ->
  exists segment, protocolSegment (NodeType c) = Some segment /\
    issues_on (spec_endpoint segment "nodeOnline" (NodeID c)) sent
              (ReportNodeOnlineUsers c sent onlineUserList).2.
Proof.
  intros Hs. unfold ReportNodeOnlineUsers.
  destruct (proj1 (ReportNodeOnlineUsers_path_resolves c) Hs)
    as (seg & Hseg & ->).
  exists seg. split; [done|]. one_request.
Qed.

Lemma ReportUserTraffic_issues (c : APIClient) (sent : list Request)
    (userTraffic : list api_UserTraffic) :
  supported c ->
  exists segment, protocolSegment (NodeType c) = Some segment /\
    issues_on (spec_endpoint segment "userTraffic" (NodeID c)) sent
              (ReportUserTraffic c sent userTraffic).2.
Proof.
  intros Hs. unfold ReportUserTraffic.
  destruct (proj1 (ReportUserTraffic_path_resolves c) Hs) as (seg & Hseg & ->).
  exists seg. split; [done|]. one_request.
Qed.

Lemma GetNodeRule_issues (c : APIClient) (sent : list Request) :
  supported c ->
  exists segment, protocolSegment (NodeType c) = Some segment /\
    issues_on (spec_endpoint segment "nodeRule" (NodeID c)) sent
              (GetNodeRule c sent).2.
Proof.
  intros Hs. unfold GetNodeRule.
  destruct (proj1 (GetNodeRule_path_resolves c) Hs) as (seg & Hseg & ->).
  exists seg. split; [done|]. one_request.
Qed.

Lemma ReportIllegal_issues (c : APIClient) (sent : list Request)
    (detectResultList : list DetectResult) :
  supported c ->
  exists segment, protocolSegment (NodeType c) = Some segment /\
    issues_on (spec_endpoint segment "trigger" (NodeID c)) sent
              (ReportIllegal c sent detectResultList).2.
Proof.
  intros Hs. unfold ReportIllegal.
  destruct (proj1 (ReportIllegal_path_resolves c) Hs) as (seg & Hseg & ->).
  exists seg. split; [done|].
  destruct (reportIllegalResults_run c
              (spec_endpoint seg "trigger" (NodeID c)) detectResultList sent)
    as (n & reqs & Hsent & _ & Hall & _).
  destruct (reportIllegalResults c sent _ detectResultList) as [r sent1].
  cbn in *. exists reqs. split; [done|].
  eapply Forall_impl; [exact Hall|]. by intros req [_ ?].
Qed.

Lemma forget_sent {A : Type} (r : result A * APIClient * list Request) :
  (forget r).2 = r.2.
Proof. by destruct r as [[[] ?] ?]. Qed.

(** C8.  Every operation of the client, called on a client whose node
    type is none of "V2ray", "Trojan" and "Shadowsocks", returns the
    error of an unsupported node type at once: no request is sent and
    the client is unchanged.  On a client of a known node type, every
    request the operation sends goes to
    [/api/{segment}/v1/{operation}/{nodeId}], with the segment v2ray,
    trojan or ss of the node type. *)
Theorem operations_dispatch_on_node_type (c : APIClient)
    (sent : list Request) (k : call) :
  (~ supported c ->
     perform c sent k = (Err (UnsupportedNodeType (NodeType c)), c, sent)) /\
  (supported c ->
     exists segment, protocolSegment (NodeType c) = Some segment /\
       issues_on (spec_endpoint segment (operation k) (NodeID c)) sent
                 (perform c sent k).2).
Proof.
  split; intros Hs.
  - destruct k; cbn [perform].
    + unfold GetNodeInfo.
      by rewrite (proj2 (GetNodeInfo_path_resolves c) Hs).
    + unfold GetUserList.
      by rewrite (proj2 (GetUserList_path_resolves c) Hs).
    + unfold ReportNodeStatus.
      by rewrite (proj2 (ReportNodeStatus_path_resolves c) Hs).
    + unfold ReportNodeOnlineUsers.
      by rewrite (proj2 (ReportNodeOnlineUsers_path_resolves c) Hs).
    + unfold ReportUserTraffic.
      by rewrite (proj2 (ReportUserTraffic_path_resolves c) Hs).
    + unfold GetNodeRule.
      by rewrite (proj2 (GetNodeRule_path_resolves c) Hs).
    + unfold ReportIllegal.
      by rewrite (proj2 (ReportIllegal_path_resolves c) Hs).
  - destruct k; cbn [perform operation]; rewrite ?forget_sent.
    + by apply GetNodeInfo_issues.
    + by apply GetUserList_issues.
    + by apply ReportNodeStatus_issues.
    + by apply ReportNodeOnlineUsers_issues.
    + by apply ReportUserTraffic_issues.
    + by apply GetNodeRule_issues.
    + by apply ReportIllegal_issues.
Qed.

End Dispatch.

(** * Further properties *)

(** ** The state of the client *)

Lemma set_LastReportOnline_same (c : APIClient) :
  set_LastReportOnline c (LastReportOnline c) = c.
Proof. by destruct c. Qed.

Lemma set_LastReportOnline_twice (c : APIClient) (m m' : gmap Z Z) :
  set_LastReportOnline (set_LastReportOnline c m) m' =
    set_LastReportOnline c m'.
Proof. done. Qed.

Lemma shrinks_refl (c : APIClient) : shrinks c c.
Proof. exists (LastReportOnline c). by rewrite set_LastReportOnline_same. Qed.

Lemma shrinks_trans (c1 c2 c3 : APIClient) :
  shrinks c1 c2 -> shrinks c2 c3 -> shrinks c1 c3.
Proof.
  intros (m1 & -> & H1) (m2 & -> & H2). exists m2.
  split; [done|]. by transitivity m1.
Qed.

Lemma shrinks_delete (c : APIClient) (uid : Z) :
  shrinks c (set_LastReportOnline c (delete uid (LastReportOnline c))).
Proof. eexists. split; [done|]. apply delete_subseteq. Qed.

Lemma ParseV2rayUser_shrinks (c : APIClient) (user : VMessUser) :
  shrinks c (ParseV2rayUser c user).1.
Proof.
  unfold ParseV2rayUser.
  repeat case_match; cbn; auto using shrinks_refl, shrinks_delete.
Qed.

Lemma ParseTrojanUser_shrinks (c : APIClient) (user : TrojanUser) :
  shrinks c (ParseTrojanUser c user).1.
Proof.
  unfold ParseTrojanUser.
  repeat case_match; cbn; auto using shrinks_refl, shrinks_delete.
Qed.

Lemma ParseV2rayUsers_shrinks (users : list (option VMessUser))
    (c : APIClient) (userList : list UserInfo) :
  shrinks c (ParseV2rayUsers c users userList).2.
Proof.
  revert c userList. induction users as [|[user|] users IH];
    intros c userList; cbn [ParseV2rayUsers]; try apply shrinks_refl.
  pose proof (ParseV2rayUser_shrinks c user) as Hs.
  destruct (ParseV2rayUser c user) as [c1 [info|]];
    (eapply shrinks_trans; [exact Hs|apply IH]).
Qed.

Lemma ParseTrojanUsers_shrinks (users : list (option TrojanUser))
    (c : APIClient) (userList : list UserInfo) :
  shrinks c (ParseTrojanUsers c users userList).2.
Proof.
  revert c userList. induction users as [|[user|] users IH];
    intros c userList; cbn [ParseTrojanUsers]; try apply shrinks_refl.
  pose proof (ParseTrojanUser_shrinks c user) as Hs.
  destruct (ParseTrojanUser c user) as [c1 [info|]];
    (eapply shrinks_trans; [exact Hs|apply IH]).
Qed.

Section State.
Context `{Ext : External}.

Lemma GetUserList_shrinks (c : APIClient) (sent : list Request) :
  shrinks c (GetUserList c sent).1.2.
Proof.
  unfold GetUserList, send.
  destruct (GetUserList_path c) as [path|]; [|apply shrinks_refl].
  destruct (resty_Execute sent _) as [res err].
  destruct (parseResponse c res path err) as [response|e|p];
    try apply shrinks_refl.
  unfold ParseV2rayUserListResponse, ParseTrojanUserListResponse,
    ParseSSUserListResponse.
  repeat case_match; simplify_eq; cbn; try apply shrinks_refl;
    match goal with
    | H : ParseV2rayUsers ?c ?u ?a = _ |- _ =>
        pose proof (ParseV2rayUsers_shrinks u c a) as Hs; by rewrite H in Hs
    | H : ParseTrojanUsers ?c ?u ?a = _ |- _ =>
        pose proof (ParseTrojanUsers_shrinks u c a) as Hs; by rewrite H in Hs
    end.
Qed.

Lemma forget_client {A : Type} (r : result A * APIClient * list Request) :
  (forget r).1.2 = r.1.2.
Proof. by destruct r as [[[] ?] ?]. Qed.

Lemma GetNodeInfo_client (c : APIClient) (sent : list Request) :
  (GetNodeInfo c sent).1.2 = c.
Proof. unfold GetNodeInfo, send. by repeat case_match; simplify_eq. Qed.

Lemma GetNodeRule_client (c : APIClient) (sent : list Request) :
  (GetNodeRule c sent).1.2 = c.
Proof. unfold GetNodeRule, send. by repeat case_match; simplify_eq. Qed.

Lemma ReportNodeStatus_client (c : APIClient) (sent : list Request)
    (nodeStatus : api_NodeStatus) :
  (ReportNodeStatus c sent nodeStatus).1.2 = c.
Proof. unfold ReportNodeStatus, send. by repeat case_match; simplify_eq. Qed.

Lemma ReportUserTraffic_client (c : APIClient) (sent : list Request)
    (userTraffic : list api_UserTraffic) :
  (ReportUserTraffic c sent userTraffic).1.2 = c.
Proof. unfold ReportUserTraffic, send. by repeat case_match; simplify_eq. Qed.

Lemma ReportIllegal_client (c : APIClient) (sent : list Request)
    (detectResultList : list DetectResult) :
  (ReportIllegal c sent detectResultList).1.2 = c.
Proof. unfold ReportIllegal. by repeat case_match; simplify_eq. Qed.

Lemma ReportNodeOnlineUsers_client (c : APIClient) (sent : list Request)
    (onlineUserList : list OnlineUser) :
  exists m,
    (ReportNodeOnlineUsers c sent onlineUserList).1.2 =
      set_LastReportOnline c m.
Proof.
  unfold ReportNodeOnlineUsers, send.
  repeat case_match; simplify_eq; cbn; eauto.
  exists (LastReportOnline c). by rewrite set_LastReportOnline_same.
Qed.

(** X1.  No operation changes the configuration of the client: after
    any call the client differs from the one before in the retained
    session counts at most, and only the user-list fetch and the online
    report can change those; the five other operations return the client
    as it was, whatever the panel answers. *)
Theorem operations_change_retained_counts_only (c : APIClient)
    (sent : list Request) (k : call) :
  (exists m, (perform c sent k).1.2 = set_LastReportOnline c m) /\
  match k with
  | CallGetUserList | CallReportNodeOnlineUsers _ => True
  | _ => (perform c sent k).1.2 = c
  end.
Proof.
  assert (forall c' : APIClient, c' = c ->
            exists m, c' = set_LastReportOnline c m) as Hsame.
  { intros c' ->. exists (LastReportOnline c).
    by rewrite set_LastReportOnline_same. }
  destruct k; cbn [perform]; rewrite ?forget_client.
  - split; [apply Hsame|]; apply GetNodeInfo_client.
  - split; [|done].
    destruct (GetUserList_shrinks c sent) as (m & -> & _). by exists m.
  - split; [apply Hsame|]; apply ReportNodeStatus_client.
  - split; [|done]. apply ReportNodeOnlineUsers_client.
  - split; [apply Hsame|]; apply ReportUserTraffic_client.
  - split; [apply Hsame|]; apply GetNodeRule_client.
  - split; [apply Hsame|]; apply ReportIllegal_client.
Qed.

(** X2.  The user-list fetch never adds a retained session count and
    never changes one: every entry of the mapping after the fetch was an
    entry of the mapping before it, with the same count.  This holds for
    the three node types and for every answer of the panel, errors and
    panics included. *)
Theorem user_list_fetch_only_deletes (c : APIClient) (sent : list Request) :
  LastReportOnline (GetUserList c sent).1.2 ⊆ LastReportOnline c.
Proof. by destruct (GetUserList_shrinks c sent) as (m & -> & Hm). Qed.

End State.

(** ** The requests of the operations *)

Section Requests.
Context `{Ext : External}.

Lemma sends_none (c : APIClient) (k : call) (sent : list Request) :
  sends c k sent sent.
Proof.
  exists []. rewrite app_nil_r. split; [done|]. split; [cbn; lia|done].
Qed.

Lemma sends_one (c : APIClient) (k : call) (sent : list Request)
    (req : Request) :
  max_requests k = 1%nat ->
  ReqMethod req = method_of k -> HeaderKey req = Key c ->
  (method_of k = GET -> ReqBody req = NoBody) ->
  sends c k sent (sent ++ [req]).
Proof.
  intros Hmax Hm Hk Hb. exists [req]. split; [done|].
  split; [by rewrite Hmax|]. by constructor.
Qed.

(** An operation that sends one request at most. *)
Ltac one_request_at_most :=
  unfold send; repeat case_match; simplify_eq; cbn;
  first [ by apply sends_none | by apply sends_one ].

Lemma reportIllegalResults_requests (c : APIClient) (path : string)
    (detectResultList : list DetectResult) (sent : list Request) :
  sends c (CallReportIllegal detectResultList) sent
        (reportIllegalResults c sent path detectResultList).2.
Proof.
  revert sent. induction detectResultList as [|r rest IH]; intros sent.
  - apply sends_none.
  - cbn [reportIllegalResults]. unfold send.
    set (req := createCommonRequest c sent POST path _).
    destruct (resty_Execute sent req) as [res err].
    destruct (parseResponse c res path err) as [response|e|p].
    + destruct (IH (sent ++ [req])) as (reqs & -> & Hlen & Hall).
      exists (req :: reqs). rewrite <- app_assoc.
      split; [done|]. split; [cbn in *; lia|]. by constructor.
    + exists [req]. split; [done|]. split; [cbn; lia|]. by constructor.
    + exists [req]. split; [done|]. split; [cbn; lia|]. by constructor.
Qed.

(** X3.  Every operation only adds to the requests sent: it sends one
    request at most, and the violation report one per result at most.
    Each request carries the key of the client in its "key" header and
    has the method of the operation: GET with no body for the three
    fetches, POST for the four reports. *)
Theorem operations_send_bounded_requests (c : APIClient)
    (sent : list Request) (k : call) :
  sends c k sent (perform c sent k).2.
Proof.
  destruct k; cbn [perform]; rewrite ?forget_sent.
  - unfold GetNodeInfo. one_request_at_most.
  - unfold GetUserList. one_request_at_most.
  - unfold ReportNodeStatus. one_request_at_most.
  - unfold ReportNodeOnlineUsers. one_request_at_most.
  - unfold ReportUserTraffic. one_request_at_most.
  - unfold GetNodeRule. one_request_at_most.
  - unfold ReportIllegal.
    destruct (ReportIllegal_path c) as [path|]; [|apply sends_none].
    pose proof (reportIllegalResults_requests c path detectResultList sent).
    by destruct (reportIllegalResults c sent path detectResultList).
Qed.

Lemma protocolSegment_supported (c : APIClient) (segment : string) :
  protocolSegment (NodeType c) = Some segment -> supported c.
Proof.
  unfold protocolSegment, supported. switch_node_type c; (tauto || done).
Qed.

(** Rewrites the answer to the request about to be sent with the
    verdict [H] on every request of that path. *)
Ltac refused c H :=
  unfold send;
  match goal with
  | |- context [resty_Execute ?s ?r] =>
      let Hr := fresh "Hr" in
      pose proof (H r eq_refl) as Hr; unfold verdict in Hr;
      destruct (resty_Execute s r) as [? ?];
      cbn [ReqPath createCommonRequest] in Hr;
      try change (parseResponse (set_LastReportOnline c _) ?a ?b ?d)
        with (parseResponse c a b d);
      rewrite Hr
  end.

(** X4.  For a client of a known node type, when the panel refuses the
    request on the endpoint of an operation (no answer, a status over
    400 or an envelope that is not a success), the operation returns the
    error [parseResponse] makes of the refusal, as it is, and does not
    panic.  The one exception is the violation report of an empty list,
    which sends nothing. *)
Theorem operations_return_the_refusal (c : APIClient) (sent : list Request)
    (k : call) (segment : string) (e : error) :
  protocolSegment (NodeType c) = Some segment ->
  (forall req,
     ReqPath req = spec_endpoint segment (operation k) (NodeID c) ->
     verdict c sent req = Err e) ->
  k <> CallReportIllegal [] ->
  (perform c sent k).1.1 = Err e.
Proof.
  intros Hseg H Hk.
  pose proof (protocolSegment_supported c segment Hseg) as Hs.
  destruct k; cbn [perform operation] in *.
  - unfold GetNodeInfo.
    destruct (proj1 (GetNodeInfo_path_resolves c) Hs) as (seg & ? & ->).
    simplify_eq. by refused c H.
  - unfold GetUserList.
    destruct (proj1 (GetUserList_path_resolves c) Hs) as (seg & ? & ->).
    simplify_eq. by refused c H.
  - unfold ReportNodeStatus.
    destruct (proj1 (ReportNodeStatus_path_resolves c) Hs) as (seg & ? & ->).
    simplify_eq. by refused c H.
  - unfold ReportNodeOnlineUsers.
    destruct (proj1 (ReportNodeOnlineUsers_path_resolves c) Hs)
      as (seg & ? & ->).
    simplify_eq. by refused c H.
  - unfold ReportUserTraffic.
    destruct (proj1 (ReportUserTraffic_path_resolves c) Hs) as (seg & ? & ->).
    simplify_eq. by refused c H.
  - unfold GetNodeRule.
    destruct (proj1 (GetNodeRule_path_resolves c) Hs) as (seg & ? & ->).
    simplify_eq. by refused c H.
  - unfold ReportIllegal.
    destruct (proj1 (ReportIllegal_path_resolves c) Hs) as (seg & ? & ->).
    simplify_eq. destruct detectResultList as [|r rest]; [done|].
    cbn [reportIllegalResults]. by refused c H.
Qed.

End Requests.

(** The panel cannot be reached: the rule fetch returns the request
    error with the URL of the endpoint. *)
Lemma operations_return_the_refusal_witness :
  (perform (Ext := Sample.panel Sample.unreachable)
     (Sample.client "Shadowsocks" 0 ∅) [] CallGetNodeRule).1.1 =
    Err (RequestFailed "https://panel.example/api/ss/v1/nodeRule/42"
           "connection refused").
Proof.
  apply (operations_return_the_refusal
           (Ext := Sample.panel Sample.unreachable)
           (Sample.client "Shadowsocks" 0 ∅) [] CallGetNodeRule "ss").
  - done.
  - intros req Hpath. unfold verdict. cbn. by rewrite Hpath.
  - done.
Defined.

(** ** More on the user lists *)

(** Case analysis of one turn of the loop on the comparisons it makes,
    with [L] the base limit, [O] the online count and [P] the retained
    count. *)
Ltac turn_cases L O P :=
  destruct (Z.ltb_spec 0 L), (Z.ltb_spec 0 O); cbn [andb];
  [ destruct (Z.ltb_spec 0 (int_add (int_sub L O) P));
    [|destruct (Z.ltb_spec 0 P)]
  | destruct (_ && _) | destruct (_ && _) | destruct (_ && _) ];
  cbn; repeat split; intros; try done; try lia.

Lemma ParseV2rayUser_outcome (c : APIClient) (user : VMessUser) :
  let L := base_limit c (VM_DeviceLimit user) in
  match (ParseV2rayUser c user).2 with
  | Some info =>
      UID info = VM_UID user /\
      (0 < L -> 0 < UI_DeviceLimit info) /\
      (L <= 0 -> UI_DeviceLimit info = L)
  | None =>
      0 < L /\ 0 < VM_OnlineCount user /\ retained c (VM_UID user) <= 0
  end.
Proof.
  intros L. unfold ParseV2rayUser.
  fold (base_limit c (VM_DeviceLimit user)). fold L.
  change (match LastReportOnline c !! VM_UID user with
          | Some v => v | None => 0 end) with (retained c (VM_UID user)).
  turn_cases L (VM_OnlineCount user) (retained c (VM_UID user)).
Qed.

Lemma ParseTrojanUser_outcome (c : APIClient) (user : TrojanUser) :
  let L := base_limit c (TJ_DeviceLimit user) in
  match (ParseTrojanUser c user).2 with
  | Some info =>
      UID info = TJ_UID user /\
      (0 < L -> 0 < UI_DeviceLimit info) /\
      (L <= 0 -> UI_DeviceLimit info = L)
  | None =>
      0 < L /\ 0 < TJ_OnlineCount user /\ retained c (TJ_UID user) <= 0
  end.
Proof.
  intros L. unfold ParseTrojanUser.
  fold (base_limit c (TJ_DeviceLimit user)). fold L.
  change (match LastReportOnline c !! TJ_UID user with
          | Some v => v | None => 0 end) with (retained c (TJ_UID user)).
  turn_cases L (TJ_OnlineCount user) (retained c (TJ_UID user)).
Qed.

(** X5.  One turn of the user loop of the V2ray and of the Trojan
    adapter, with no assumption on the integers: a record that is
    appended carries the id of the user; when the base limit is positive
    its device limit is positive too (a limited user never becomes
    unlimited), and otherwise it is the base limit; and a user is left
    out only when the base limit and the online count are positive and
    the retained count is not. *)
Theorem limited_users_stay_limited (c : APIClient) :
  (forall user : VMessUser,
     let L := base_limit c (VM_DeviceLimit user) in
     match (ParseV2rayUser c user).2 with
     | Some info =>
         UID info = VM_UID user /\
         (0 < L -> 0 < UI_DeviceLimit info) /\
         (L <= 0 -> UI_DeviceLimit info = L)
     | None =>
         0 < L /\ 0 < VM_OnlineCount user /\ retained c (VM_UID user) <= 0
     end) /\
  (forall user : TrojanUser,
     let L := base_limit c (TJ_DeviceLimit user) in
     match (ParseTrojanUser c user).2 with
     | Some info =>
         UID info = TJ_UID user /\
         (0 < L -> 0 < UI_DeviceLimit info) /\
         (L <= 0 -> UI_DeviceLimit info = L)
     | None =>
         0 < L /\ 0 < TJ_OnlineCount user /\ retained c (TJ_UID user) <= 0
     end).
Proof.
  split; intros user.
  - apply ParseV2rayUser_outcome.
  - apply ParseTrojanUser_outcome.
Qed.

Lemma ParseV2rayUsers_order (users : list (option VMessUser))
    (c : APIClient) (userList : list UserInfo) (out : list UserInfo) :
  (ParseV2rayUsers c users userList).1 = Ok out ->
  exists kept, out = userList ++ kept /\
    map UID kept `sublist_of` vmess_ids users /\ None ∉ users.
Proof.
  revert c userList. induction users as [|[user|] users IH];
    intros c userList; cbn [ParseV2rayUsers fst].
  - intros [= <-]. exists []. rewrite app_nil_r.
    split; [done|]. split; [done|]. apply not_elem_of_nil.
  - pose proof (ParseV2rayUser_outcome c user) as Hu.
    destruct (ParseV2rayUser c user) as [c1 [info|]]; cbn in Hu; intros Hr;
      destruct (IH _ _ Hr) as (kept & -> & Hsub & Hnil).
    + exists (info :: kept). rewrite <- app_assoc. split; [done|].
      split; [|by apply not_elem_of_cons].
      cbn. destruct Hu as [-> _]. by apply sublist_skip.
    + exists kept. split; [done|].
      split; [|by apply not_elem_of_cons]. by apply sublist_cons.
  - done.
Qed.

Lemma ParseTrojanUsers_order (users : list (option TrojanUser))
    (c : APIClient) (userList : list UserInfo) (out : list UserInfo) :
  (ParseTrojanUsers c users userList).1 = Ok out ->
  exists kept, out = userList ++ kept /\
    map UID kept `sublist_of` trojan_ids users /\ None ∉ users.
Proof.
  revert c userList. induction users as [|[user|] users IH];
    intros c userList; cbn [ParseTrojanUsers fst].
  - intros [= <-]. exists []. rewrite app_nil_r.
    split; [done|]. split; [done|]. apply not_elem_of_nil.
  - pose proof (ParseTrojanUser_outcome c user) as Hu.
    destruct (ParseTrojanUser c user) as [c1 [info|]]; cbn in Hu; intros Hr;
      destruct (IH _ _ Hr) as (kept & -> & Hsub & Hnil).
    + exists (info :: kept). rewrite <- app_assoc. split; [done|].
      split; [|by apply not_elem_of_cons].
      cbn. destruct Hu as [-> _]. by apply sublist_skip.
    + exists kept. split; [done|].
      split; [|by apply not_elem_of_cons]. by apply sublist_cons.
  - done.
Qed.

Lemma ParseSSUsers_all (users : list (option SSUser)) (c : APIClient)
    (userList : list UserInfo) (out : list UserInfo) :
  ParseSSUsers c users userList = Ok out ->
  exists decoded, users = map Some decoded /\
    out = userList ++ map (ParseSSUser c) decoded.
Proof.
  revert userList. induction users as [|[user|] users IH];
    intros userList; cbn [ParseSSUsers].
  - intros [= <-]. exists []. by rewrite app_nil_r.
  - intros Hr. destruct (IH _ Hr) as (decoded & -> & ->).
    exists (user :: decoded). by rewrite <- app_assoc.
  - done.
Qed.

Lemma ParseV2rayUsers_nil (users : list (option VMessUser)) (c : APIClient)
    (userList : list UserInfo) :
  (None ∈ users ->
     (ParseV2rayUsers c users userList).1 = Panicked NilPointerDereference) /\
  (None ∉ users -> exists out, (ParseV2rayUsers c users userList).1 = Ok out).
Proof.
  revert c userList. induction users as [|[user|] users IH];
    intros c userList; cbn [ParseV2rayUsers].
  - split; [by intros ?%elem_of_nil|]. by exists userList.
  - destruct (ParseV2rayUser c user) as [c1 [info|]];
      (split; [intros [?|?]%elem_of_cons; [done|by apply IH]
              |intros [_ ?]%not_elem_of_cons; by apply IH]).
  - split; [done|]. intros []. by left.
Qed.

Lemma ParseTrojanUsers_nil (users : list (option TrojanUser)) (c : APIClient)
    (userList : list UserInfo) :
  (None ∈ users ->
     (ParseTrojanUsers c users userList).1 = Panicked NilPointerDereference) /\
  (None ∉ users -> exists out, (ParseTrojanUsers c users userList).1 = Ok out).
Proof.
  revert c userList. induction users as [|[user|] users IH];
    intros c userList; cbn [ParseTrojanUsers].
  - split; [by intros ?%elem_of_nil|]. by exists userList.
  - destruct (ParseTrojanUser c user) as [c1 [info|]];
      (split; [intros [?|?]%elem_of_cons; [done|by apply IH]
              |intros [_ ?]%not_elem_of_cons; by apply IH]).
  - split; [done|]. intros []. by left.
Qed.

Lemma ParseSSUsers_nil (users : list (option SSUser)) (c : APIClient)
    (userList : list UserInfo) :
  (None ∈ users ->
     ParseSSUsers c users userList = Panicked NilPointerDereference) /\
  (None ∉ users -> exists out, ParseSSUsers c users userList = Ok out).
Proof.
  revert userList. induction users as [|[user|] users IH];
    intros userList; cbn [ParseSSUsers].
  - split; [by intros ?%elem_of_nil|]. by exists userList.
  - split; [intros [?|?]%elem_of_cons; [done|by apply IH]
           |intros [_ ?]%not_elem_of_cons; by apply IH].
  - split; [done|]. intros []. by left.
Qed.

Lemma ss_ids_decoded (decoded : list SSUser) :
  ss_ids (map Some decoded) = map SS_UID decoded.
Proof.
  unfold ss_ids. induction decoded as [|user decoded IH]; [done|].
  cbn. by rewrite IH.
Qed.

Section Adapters.
Context `{Ext : External}.

(** X6.  The list an adapter returns follows the payload.  For the
    V2ray and the Trojan adapter the ids of the records returned are, in
    the order of the payload, ids of its users: no record is invented or
    moved, some may be left out.  The Shadowsocks adapter returns one
    record per user, in order, none left out, each with the device limit
    of the client. *)
Theorem user_lists_follow_the_payload (c : APIClient) (raw : RawMessage) :
  (forall users out,
     Unmarshal_slice Unmarshal_VMessUser raw = Some users ->
     (ParseV2rayUserListResponse c raw).1 = Ok out ->
     map UID out `sublist_of` vmess_ids users) /\
  (forall users out,
     Unmarshal_slice Unmarshal_TrojanUser raw = Some users ->
     (ParseTrojanUserListResponse c raw).1 = Ok out ->
     map UID out `sublist_of` trojan_ids users) /\
  (forall users out,
     Unmarshal_slice Unmarshal_SSUser raw = Some users ->
     (ParseSSUserListResponse c raw).1 = Ok out ->
     map UID out = ss_ids users /\ length out = length users /\
     Forall (fun info => UI_DeviceLimit info = DeviceLimit c) out).
Proof.
  unfold ParseV2rayUserListResponse, ParseTrojanUserListResponse,
    ParseSSUserListResponse.
  split; [|split]; intros users out -> Hr.
  - by destruct (ParseV2rayUsers_order users c [] out Hr) as (kept & -> & ? & _).
  - by destruct (ParseTrojanUsers_order users c [] out Hr) as (kept & -> & ? & _).
  - destruct (ParseSSUsers_all users c [] out Hr) as (decoded & -> & ->).
    cbn [app]. rewrite ss_ids_decoded, !length_map, <- list_fmap_compose.
    split; [done|]. split; [done|].
    apply Forall_forall. by intros info (user & -> & _)%list_elem_of_fmap.
Qed.

(** X7.  Once the payload of a user list is decoded, an adapter ends in
    one of two ways: when the payload holds a null entry (a nil pointer
    in the decoded slice) the loop dereferences it and the adapter
    panics; when it holds none the adapter returns a list.  This holds
    for the three adapters. *)
Theorem user_list_null_entry_panics (c : APIClient) (raw : RawMessage) :
  (forall users,
     Unmarshal_slice Unmarshal_VMessUser raw = Some users ->
     (None ∈ users ->
        (ParseV2rayUserListResponse c raw).1 =
          Panicked NilPointerDereference) /\
     (None ∉ users ->
        exists out, (ParseV2rayUserListResponse c raw).1 = Ok out)) /\
  (forall users,
     Unmarshal_slice Unmarshal_TrojanUser raw = Some users ->
     (None ∈ users ->
        (ParseTrojanUserListResponse c raw).1 =
          Panicked NilPointerDereference) /\
     (None ∉ users ->
        exists out, (ParseTrojanUserListResponse c raw).1 = Ok out)) /\
  (forall users,
     Unmarshal_slice Unmarshal_SSUser raw = Some users ->
     (None ∈ users ->
        (ParseSSUserListResponse c raw).1 =
          Panicked NilPointerDereference) /\
     (None ∉ users ->
        exists out, (ParseSSUserListResponse c raw).1 = Ok out)).
Proof.
  unfold ParseV2rayUserListResponse, ParseTrojanUserListResponse,
    ParseSSUserListResponse.
  split; [|split]; intros users ->.
  - apply ParseV2rayUsers_nil.
  - apply ParseTrojanUsers_nil.
  - apply ParseSSUsers_nil.
Qed.

End Adapters.

(** ** The online report and the next fetch *)

Lemma counts_of_bounds (l : list OnlineUser) (m : gmap Z Z) (uid v : Z) :
  counts_of l m -> m !! uid = Some v ->
  v = Z.of_nat (sessions uid l) /\ 1 <= v <= Z.of_nat (length l) /\
  exists user, user ∈ l /\ OU_UID user = uid.
Proof.
  intros Hc Hv. rewrite (Hc uid) in Hv.
  case_decide as Hn; [done|]. injection Hv as <-.
  pose proof (sessions_le uid l). split; [done|]. split; [lia|].
  unfold sessions in Hn.
  destruct (filter (λ user, OU_UID user = uid) l) as [|user rest] eqn:Hf;
    [done|].
  exists user.
  assert (user ∈ filter (λ user, OU_UID user = uid) l) as Hin
    by (rewrite Hf; by left).
  apply list_elem_of_filter in Hin. tauto.
Qed.

Section ReportThenFetch.
Context `{Ext : External}.

(** X8.  For a client of a known node type, after an online report
    every retained session count is the number of sessions of its user
    in the reported list: it is at least 1 and at most the length of the
    list, and its user occurs in the list.  The list has at most
    [int_max] entries. *)
Theorem retained_counts_are_session_counts (c : APIClient)
    (sent : list Request) (onlineUserList : list OnlineUser) (uid v : Z) :
  supported c ->
  Z.of_nat (length onlineUserList) <= int_max ->
  LastReportOnline (ReportNodeOnlineUsers c sent onlineUserList).1.2
    !! uid = Some v ->
  v = Z.of_nat (sessions uid onlineUserList) /\
  1 <= v <= Z.of_nat (length onlineUserList) /\
  exists user, user ∈ onlineUserList /\ OU_UID user = uid.
Proof.
  intros Hs Hlen.
  destruct (ReportNodeOnlineUsers_effect c sent onlineUserList Hs)
    as (req & -> & _).
  cbn. apply counts_of_bounds. by apply counts_of_report.
Qed.

(** X9.  No lockout after a report.  For a client of a known node type,
    take the client as an online report of a list leaves it, and a
    V2ray or Trojan user with a positive base limit [L] whose online
    count in the payload is the number of its sessions in that list,
    which is positive.  The turn of the user loop keeps the user with the
    device limit [L] and leaves the client as it is.  [L] is a Go int
    and the list has at most [int_max] entries. *)
Theorem report_then_fetch_keeps_the_limit (c : APIClient)
    (sent : list Request) (onlineUserList : list OnlineUser) (uid L : Z) :
  supported c ->
  Z.of_nat (length onlineUserList) <= int_max ->
  is_int L -> 0 < L ->
  (0 < sessions uid onlineUserList)%nat ->
  let c1 := (ReportNodeOnlineUsers c sent onlineUserList).1.2 in
  (forall user : VMessUser,
     VM_UID user = uid -> base_limit c (VM_DeviceLimit user) = L ->
     VM_OnlineCount user = Z.of_nat (sessions uid onlineUserList) ->
     (ParseV2rayUser c1 user).1 = c1 /\
     UI_DeviceLimit <$> (ParseV2rayUser c1 user).2 = Some L) /\
  (forall user : TrojanUser,
     TJ_UID user = uid -> base_limit c (TJ_DeviceLimit user) = L ->
     TJ_OnlineCount user = Z.of_nat (sessions uid onlineUserList) ->
     (ParseTrojanUser c1 user).1 = c1 /\
     UI_DeviceLimit <$> (ParseTrojanUser c1 user).2 = Some L).
Proof.
  intros Hs Hlen HL HL0 Hn c1.
  destruct (ReportNodeOnlineUsers_effect c sent onlineUserList Hs)
    as (req & Hc1 & _).
  fold c1 in Hc1.
  pose proof (counts_of_report onlineUserList Hlen uid) as Hc.
  case_decide; [lia|].
  assert (retained c1 uid = Z.of_nat (sessions uid onlineUserList)) as HP.
  { unfold retained. rewrite Hc1. cbn. by rewrite Hc. }
  assert (forall payload, base_limit c1 payload = base_limit c payload) as Hb.
  { intros payload. by rewrite Hc1. }
  pose proof (sessions_le uid onlineUserList) as Hle.
  assert (is_int (Z.of_nat (sessions uid onlineUserList))) as HO.
  { unfold is_int, int_min, int_max in *. lia. }
  split; intros user Hu Hl Ho.
  - pose proof (ParseV2rayUser_reconciled c1 user) as Hr. cbn zeta in Hr.
    rewrite Hb, Hl, Ho, Hu, HP in Hr.
    destruct Hr as [Hr _].
    { done. } { done. }
    { by replace (L - Z.of_nat (sessions uid onlineUserList)
                  + Z.of_nat (sessions uid onlineUserList)) with L by lia. }
    destruct Hr as [Hr _]; [lia..|].
    destruct Hr as (? & _ & Hd); [lia|]. split; [done|].
    rewrite Hd. f_equal. lia.
  - pose proof (ParseTrojanUser_reconciled c1 user) as Hr. cbn zeta in Hr.
    rewrite Hb, Hl, Ho, Hu, HP in Hr.
    destruct Hr as [Hr _].
    { done. } { done. }
    { by replace (L - Z.of_nat (sessions uid onlineUserList)
                  + Z.of_nat (sessions uid onlineUserList)) with L by lia. }
    destruct Hr as [Hr _]; [lia..|].
    destruct Hr as (? & _ & Hd); [lia|]. split; [done|].
    rewrite Hd. f_equal. lia.
Qed.

End ReportThenFetch.

Lemma retained_counts_are_session_counts_witness :
  2 = Z.of_nat
        (sessions 7
           [ {| OU_UID := 7; OU_IP := "10.0.0.1" |};
             {| OU_UID := 8; OU_IP := "10.0.0.2" |};
             {| OU_UID := 7; OU_IP := "10.0.0.3" |} ]) /\
  1 <= 2 <= 3.
Proof.
  destruct (retained_counts_are_session_counts
              (Ext := Sample.panel (Sample.answers (Sample.envelope "success" "")))
              (Sample.client "V2ray" 0 {[9 := 4]}) []
              [ {| OU_UID := 7; OU_IP := "10.0.0.1" |};
                {| OU_UID := 8; OU_IP := "10.0.0.2" |};
                {| OU_UID := 7; OU_IP := "10.0.0.3" |} ] 7 2)
    as (Hv & Hb & _).
  - by left.
  - by vm_compute.
  - by vm_compute.
  - split; [exact Hv|exact Hb].
Defined.

(** The example of the specification: two sessions of user 7 are
    reported, then the user comes with a limit of 2 and an online count
    of 2, and keeps the limit 2. *)
Lemma report_then_fetch_keeps_the_limit_witness :
  let c1 :=
    (ReportNodeOnlineUsers
       (Ext := Sample.panel (Sample.answers (Sample.envelope "success" "")))
       (Sample.client "V2ray" 0 ∅) []
       [ {| OU_UID := 7; OU_IP := "10.0.0.1" |};
         {| OU_UID := 7; OU_IP := "10.0.0.2" |} ]).1.2 in
  UI_DeviceLimit <$> (ParseV2rayUser c1 (Sample.vmess 7 2 2)).2 = Some 2.
Proof.
  destruct (report_then_fetch_keeps_the_limit
              (Ext := Sample.panel (Sample.answers (Sample.envelope "success" "")))
              (Sample.client "V2ray" 0 ∅) []
              [ {| OU_UID := 7; OU_IP := "10.0.0.1" |};
                {| OU_UID := 7; OU_IP := "10.0.0.2" |} ] 7 2)
    as [Hv _].
  - by left.
  - by vm_compute.
  - int_range.
  - lia.
  - vm_compute. lia.
  - by destruct (Hv (Sample.vmess 7 2 2) eq_refl eq_refl eq_refl) as [_ Hd].
Defined.

(** ** More on the rules *)

Section MoreRules.
Context `{Ext : External}.



(** X11.  Once the panel has answered the rule fetch, a descriptor that
    does not decode makes the fetch return the decoding error of the
    rule descriptor: no rule list is returned, not even the local one,
    and the client is unchanged. *)
Theorem rule_fetch_decoding_error (c : APIClient) (sent : list Request)
    (path : string) (response : Response) :
  GetNodeRule_path c = Some path ->
  answered c sent GET path NoBody response ->
  Unmarshal_NodeRule (Data response) = None ->
  (GetNodeRule c sent).1 = (Err (UnmarshalFailed "*proxypanel.NodeRule"), c).
Proof.
  intros Hpath Hans Hd. unfold GetNodeRule, answered in *. rewrite Hpath.
  destruct (send c sent GET path NoBody) as [[res err] sent1].
  by rewrite Hans, Hd.
Qed.

End MoreRules.


Lemma rule_fetch_decoding_error_witness :
  (GetNodeRule
     (Ext := Sample.panel (Sample.answers (Sample.envelope "success" "junk")))
     (Sample.client "Trojan" 0 ∅) []).1 =
    (Err (UnmarshalFailed "*proxypanel.NodeRule"), Sample.client "Trojan" 0 ∅).
Proof.
  apply (rule_fetch_decoding_error
           (Ext := Sample.panel
                     (Sample.answers (Sample.envelope "success" "junk")))
           (Sample.client "Trojan" 0 ∅) [] "/api/trojan/v1/nodeRule/42"
           (Sample.envelope "success" "junk")); by vm_compute.
Defined.

(** ** Node information *)

Section NodeInformation.
Context `{Ext : External}.

(** X12.  Whenever the node-information fetch returns a node, the node
    type is a known one and the node carries the type and the id of the
    client; a positive device limit of the client overrides the one of
    the payload.  A V2ray node has the TLS type of the client (xtls when
    XTLS is enabled, tls otherwise) and a header exactly when its fake
    type is "http"; a Trojan node is on tcp with TLS always enabled and
    the TLS type of the client; a Shadowsocks node is on tcp with no TLS
    and no header. *)
Theorem node_info_follows_the_client (c : APIClient) (sent : list Request)
    (info : NodeInfo) :
  (GetNodeInfo c sent).1.1 = Ok info ->
  supported c /\
  NI_NodeType info = NodeType c /\ NI_NodeID info = NodeID c /\
  (0 < DeviceLimit c -> NI_DeviceLimit info = DeviceLimit c) /\
  (NodeType c = "V2ray" ->
     NI_TLSType info = TLSType c /\ NI_EnableVless info = EnableVless c /\
     (NI_Header info = None <-> NI_FakeType info <> "http")) /\
  (NodeType c = "Trojan" ->
     NI_TransportProtocol info = "tcp" /\ NI_EnableTLS info = true /\
     NI_TLSType info = TLSType c) /\
  (NodeType c = "Shadowsocks" ->
     NI_TransportProtocol info = "tcp" /\ NI_EnableTLS info = false /\
     NI_Header info = None).
Proof.
  unfold GetNodeInfo, send.
  destruct (GetNodeInfo_path c) as [path|]; [|done].
  destruct (resty_Execute sent _) as [res err].
  destruct (parseResponse c res path err) as [response|e|p]; try done.
  unfold ParseV2rayNodeResponse, ParseTrojanNodeResponse, ParseSSNodeResponse.
  switch_node_type c; [| | |done].
  - destruct (Unmarshal_V2rayNodeInfo _) as [node|]; [|done].
    intros [= <-]; cbn.
    split; [by left|]. split; [done|]. split; [done|].
    split; [by intros ->%Z.ltb_lt|].
    split; [|split; intros; congruence].
    intros _. split; [done|]. split; [done|].
    by destruct (String.eqb_spec (V2Type node) "http"); split.
  - destruct (Unmarshal_TrojanNodeInfo _) as [node|]; [|done].
    intros [= <-]; cbn.
    split; [right; by left|]. split; [done|]. split; [done|].
    split; [by intros ->%Z.ltb_lt|].
    split; [intros; congruence|]. split; [done|]. intros; congruence.
  - destruct (Unmarshal_ShadowsocksNodeInfo _) as [node|]; [|done].
    intros [= <-]; cbn.
    split; [right; by right|]. split; [done|]. split; [done|].
    split; [by intros ->%Z.ltb_lt|].
    split; [intros; congruence|]. split; [intros; congruence|]. done.
Qed.

(** X13.  Once the panel has answered the node-information fetch, a
    payload that does not decode into the node record of the node type
    makes the fetch return the error "Parse node info failed" with the
    payload and the decoding error of the adapter; the client is
    unchanged.  This holds for the three node types. *)
Theorem node_info_decoding_error (c : APIClient) (sent : list Request)
    (path : string) (response : Response) :
  GetNodeInfo_path c = Some path ->
  answered c sent GET path NoBody response ->
  (NodeType c = "V2ray" -> Unmarshal_V2rayNodeInfo (Data response) = None) ->
  (NodeType c = "Trojan" -> Unmarshal_TrojanNodeInfo (Data response) = None) ->
  (NodeType c = "Shadowsocks" ->
     Unmarshal_ShadowsocksNodeInfo (Data response) = None) ->
  (GetNodeInfo c sent).1 =
    (Err (ParseNodeInfoFailed (Marshal_RawMessage (Data response))
            (UnmarshalFailed "json.RawMessage")), c).
Proof.
  intros Hpath Hans Hv Ht Hs. unfold GetNodeInfo, answered in *.
  rewrite Hpath. destruct (send c sent GET path NoBody) as [[res err] sent1].
  rewrite Hans.
  unfold ParseV2rayNodeResponse, ParseTrojanNodeResponse, ParseSSNodeResponse.
  switch_node_type c.
  - by rewrite Hv.
  - by rewrite Ht.
  - by rewrite Hs.
  - unfold GetNodeInfo_path in Hpath.
    by rewrite !(proj2 (String.eqb_neq _ _)) in Hpath.
Qed.

End NodeInformation.

(** A Trojan node, with a client that limits devices to 2. *)
Lemma node_info_follows_the_client_witness :
  exists info,
    (GetNodeInfo
       (Ext := SampleNodes.panel
                 (Sample.answers (Sample.envelope "success" "node")))
       (Sample.client "Trojan" 2 ∅) []).1.1 = Ok info /\
    NI_DeviceLimit info = 2 /\ NI_EnableTLS info = true /\
    NI_TLSType info = "tls".
Proof.
  eexists. split; [by vm_compute|].
  destruct (node_info_follows_the_client
              (Ext := SampleNodes.panel
                        (Sample.answers (Sample.envelope "success" "node")))
              (Sample.client "Trojan" 2 ∅) [] _ eq_refl)
    as (_ & _ & _ & Hd & _ & Ht & _).
  destruct (Ht eq_refl) as (_ & Htls & Hty).
  split; [by apply Hd|]. by split.
Defined.

Lemma node_info_decoding_error_witness :
  (GetNodeInfo
     (Ext := SampleNodes.panel
               (Sample.answers (Sample.envelope "success" "junk")))
     (Sample.client "V2ray" 0 ∅) []).1 =
    (Err (ParseNodeInfoFailed "junk" (UnmarshalFailed "json.RawMessage")),
     Sample.client "V2ray" 0 ∅).
Proof.
  apply (node_info_decoding_error
           (Ext := SampleNodes.panel
                     (Sample.answers (Sample.envelope "success" "junk")))
           (Sample.client "V2ray" 0 ∅) [] "/api/v2ray/v1/node/42"
           (Sample.envelope "success" "junk")); by vm_compute.
Defined.

(** ** Construction *)

Section Startup.
Context `{Ext : External} `{FS : FileSystem}.

Lemma scanLocalRules_all_parse (lines : list string)
    (LocalRuleList : list DetectRule) :
  Forall (fun line => regexp_parses line = true) lines ->
  scanLocalRules LocalRuleList lines =
    Started (LocalRuleList ++ map local_rule lines).
Proof.
  revert LocalRuleList. induction lines as [|line lines IH];
    intros LocalRuleList Hall; cbn [scanLocalRules].
  - by rewrite app_nil_r.
  - apply Forall_cons in Hall as [Hl Hall]. unfold MustCompile.
    rewrite Hl, IH by done. by rewrite <- app_assoc.
Qed.

Lemma scanLocalRules_panics (lines : list string)
    (LocalRuleList : list DetectRule) :
  ~ Forall (fun line => regexp_parses line = true) lines ->
  exists line, line ∈ lines /\ regexp_parses line = false /\
    scanLocalRules LocalRuleList lines =
      StartPanicked (RegexpMustCompile line).
Proof.
  revert LocalRuleList. induction lines as [|line lines IH];
    intros LocalRuleList Hnot; cbn [scanLocalRules].
  - by destruct Hnot.
  - unfold MustCompile. destruct (regexp_parses line) eqn:Hl.
    + destruct (IH (LocalRuleList ++ [{| DR_ID := -1;
                                         DR_Pattern := {| expr := line |} |}]))
        as (bad & Hin & Hbad & ->).
      { intros Hall. apply Hnot. by constructor. }
      exists bad. split; [by right|done].
    + exists line. split; [by left|done].
Qed.

(** X14.  The local rule list at start-up.  With an empty path, or a
    file that cannot be opened, the list is empty and the start goes on.
    With a file that opens: when every line compiles and the reading
    ends without error, the list has one rule per line, in order, each
    with the id -1 and the line as its pattern; when every line compiles
    and the reading breaks off, the process exits with status 1; and
    when a line does not compile the start panics on such a line,
    whether the reading breaks off or not. *)
Theorem local_rule_list_outcomes (path : string) :
  (path = "" -> readLocalRuleList path = Started []) /\
  (os_Open path = None -> readLocalRuleList path = Started []) /\
  (forall file,
     path <> "" -> os_Open path = Some file ->
     (Forall (fun line => regexp_parses line = true) (Lines file) ->
      readLocalRuleList path =
        if ScanFailed file then Exited 1
        else Started (map local_rule (Lines file))) /\
     (~ Forall (fun line => regexp_parses line = true) (Lines file) ->
      exists line, line ∈ Lines file /\ regexp_parses line = false /\
        readLocalRuleList path = StartPanicked (RegexpMustCompile line))).
Proof.
  unfold readLocalRuleList. split; [by intros ->|].
  split.
  - intros ->. by destruct (negb _).
  - intros file Hpath ->.
    destruct (String.eqb_spec path "") as [|_]; [done|]. cbn [negb].
    split.
    + intros Hall. by rewrite scanLocalRules_all_parse.
    + intros Hnot.
      destruct (scanLocalRules_panics (Lines file) [] Hnot)
        as (line & ? & ? & ->).
      by exists line.
Qed.

(** What [New] returns when it returns. *)
Lemma New_Started (apiConfig : Config) (c : APIClient)
    (client : resty_Client) :
  New apiConfig = Started (c, client) ->
  readLocalRuleList (C_RuleListPath apiConfig) = Started (LocalRuleList c) /\
  LastReportOnline c = ∅ /\
  DeviceLimit c = C_DeviceLimit apiConfig /\
  Describe c =
    {| CI_APIHost := C_APIHost apiConfig; CI_NodeID := C_NodeID apiConfig;
       CI_Key := C_Key apiConfig; CI_NodeType := C_NodeType apiConfig |} /\
  client =
    {| RetryCount := 3;
       Timeout :=
         if 0 <? C_Timeout apiConfig
         then int_wrap (C_Timeout apiConfig * time_Second)
         else 5 * time_Second;
       BaseURL := C_APIHost apiConfig; DebugMode := false |}.
Proof.
  unfold New. destruct (readLocalRuleList _) as [rules| |]; [|done..].
  by intros [= <- <-].
Qed.

(** X15.  A client [New] returns has an empty retained mapping, the
    identity (host, node id, key, node type) of the configuration, and
    the local rules read from the path of the configuration.  Its resty
    client retries 3 times, has the host as base URL, and has a positive
    timeout: 5 seconds when the configured timeout is not positive, the
    configured number of seconds when it is at most 9223372036 (beyond
    that the duration overflows). *)
Theorem new_client_is_fresh (apiConfig : Config) (c : APIClient)
    (client : resty_Client) :
  New apiConfig = Started (c, client) ->
  LastReportOnline c = ∅ /\
  Describe c =
    {| CI_APIHost := C_APIHost apiConfig; CI_NodeID := C_NodeID apiConfig;
       CI_Key := C_Key apiConfig; CI_NodeType := C_NodeType apiConfig |} /\
  readLocalRuleList (C_RuleListPath apiConfig) = Started (LocalRuleList c) /\
  RetryCount client = 3 /\ BaseURL client = APIHost c /\
  (C_Timeout apiConfig <= 0 -> Timeout client = 5 * time_Second) /\
  (0 < C_Timeout apiConfig <= 9223372036 ->
     Timeout client = C_Timeout apiConfig * time_Second) /\
  (C_Timeout apiConfig <= 9223372036 -> 0 < Timeout client).
Proof.
  intros (Hrules & Hm & _ & Hd & ->)%New_Started.
  assert (0 < C_Timeout apiConfig <= 9223372036 ->
          int_wrap (C_Timeout apiConfig * time_Second) =
            C_Timeout apiConfig * time_Second) as Hw.
  { intros Ht. apply int_wrap_id.
    unfold is_int, int_min, int_max, time_Second. lia. }
  repeat split; try done; cbn.
  - by injection Hd as <- _ _ _.
  - intros Ht. by destruct (Z.ltb_spec 0 (C_Timeout apiConfig)); [lia|].
  - intros Ht. destruct (Z.ltb_spec 0 (C_Timeout apiConfig)); [|lia].
    by apply Hw.
  - intros Ht. destruct (Z.ltb_spec 0 (C_Timeout apiConfig)).
    + rewrite Hw by lia. unfold time_Second. lia.
    + unfold time_Second. lia.
Qed.

(** X16.  The first user list of a new client.  A client [New] returns
    has no retained session count, so in a turn of the user loop of the
    V2ray or the Trojan adapter a user with a positive base limit [L]
    and a positive online count [O] keeps the limit [L - O] when [O < L]
    and is left out when [O >= L].  [L] and [O] are Go ints. *)
Theorem new_client_first_user_list (apiConfig : Config) (c : APIClient)
    (client : resty_Client) (uid L O : Z) :
  New apiConfig = Started (c, client) ->
  is_int L -> is_int O -> 0 < L -> 0 < O ->
  (forall user : VMessUser,
     VM_UID user = uid -> base_limit c (VM_DeviceLimit user) = L ->
     VM_OnlineCount user = O ->
     (O < L -> UI_DeviceLimit <$> (ParseV2rayUser c user).2 = Some (L - O)) /\
     (L <= O -> (ParseV2rayUser c user).2 = None)) /\
  (forall user : TrojanUser,
     TJ_UID user = uid -> base_limit c (TJ_DeviceLimit user) = L ->
     TJ_OnlineCount user = O ->
     (O < L -> UI_DeviceLimit <$> (ParseTrojanUser c user).2 = Some (L - O)) /\
     (L <= O -> (ParseTrojanUser c user).2 = None)).
Proof.
  intros (_ & Hm & _)%New_Started HL HO HL0 HO0.
  assert (retained c uid = 0) as HP.
  { unfold retained. by rewrite Hm, lookup_empty. }
  assert (is_int (L - O + 0)) as HC.
  { unfold is_int, int_min, int_max in *. lia. }
  split; intros user Hu Hl Ho.
  - pose proof (ParseV2rayUser_reconciled c user) as Hr. cbn zeta in Hr.
    rewrite Hl, Ho, Hu, HP in Hr.
    destruct (Hr HL HO HC) as [Hpos _].
    destruct (Hpos HL0 HO0) as (Hkeep & _ & Hdrop).
    split; intros Hlt.
    + destruct Hkeep as (_ & _ & ->); [lia|]. f_equal. lia.
    + by destruct Hdrop as [_ ->]; [lia..|].
  - pose proof (ParseTrojanUser_reconciled c user) as Hr. cbn zeta in Hr.
    rewrite Hl, Ho, Hu, HP in Hr.
    destruct (Hr HL HO HC) as [Hpos _].
    destruct (Hpos HL0 HO0) as (Hkeep & _ & Hdrop).
    split; intros Hlt.
    + destruct Hkeep as (_ & _ & ->); [lia|]. f_equal. lia.
    + by destruct Hdrop as [_ ->]; [lia..|].
Qed.

End Startup.

(** A configuration with a rule file of two lines and no timeout. *)
Lemma new_client_is_fresh_witness :
  exists c client,
    New (Ext := Sample.panel Sample.unreachable) (FS := SampleFiles.disk)
        (SampleFiles.config "V2ray" "rules.txt" 0) = Started (c, client) /\
    LastReportOnline c = ∅ /\
    Timeout client = 5000000000 /\
    LocalRuleList c = [local_rule "torrent"; local_rule "porn"].
Proof.
  eexists _, _. split; [by vm_compute|].
  destruct (new_client_is_fresh
              (Ext := Sample.panel Sample.unreachable) (FS := SampleFiles.disk)
              (SampleFiles.config "V2ray" "rules.txt" 0) _ _ eq_refl)
    as (Hm & _ & _ & _ & _ & Ht & _).
  split; [exact Hm|]. split; [by apply Ht|done].
Defined.

(** A new client with no rule file; user 7 has a limit of 5 and 3
    sessions on line: the first list gives the limit 2. *)
Lemma new_client_first_user_list_witness :
  exists c client,
    New (Ext := Sample.panel Sample.unreachable) (FS := SampleFiles.disk)
        (SampleFiles.config "V2ray" "" 0) = Started (c, client) /\
    UI_DeviceLimit <$> (ParseV2rayUser c (Sample.vmess 7 5 3)).2 = Some 2.
Proof.
  eexists _, _. split; [by vm_compute|].
  destruct (new_client_first_user_list
              (Ext := Sample.panel Sample.unreachable) (FS := SampleFiles.disk)
              (SampleFiles.config "V2ray" "" 0) _ _ 7 5 3 eq_refl)
    as [Hv _]; [int_range|int_range|lia|lia|].
  destruct (Hv (Sample.vmess 7 5 3) eq_refl eq_refl eq_refl) as [Hkeep _].
  apply Hkeep. lia.
Defined.

(** The rule file with an unclosed group: the start panics on that
    line, although the reading of the file breaks off as well. *)
Example start_panics_on_bad_local_rule :
  New (Ext := Sample.panel Sample.unreachable) (FS := SampleFiles.disk)
      (SampleFiles.config "V2ray" "broken.txt" 0) =
    StartPanicked (RegexpMustCompile "(").
Proof. by vm_compute. Qed.

(** ** Stale entries and the fetch as a whole *)

Lemma shrinks_lookup_None (c c' : APIClient) (uid : Z) :
  shrinks c c' -> LastReportOnline c !! uid = None ->
  LastReportOnline c' !! uid = None.
Proof.
  intros (m & -> & Hm) Hnone. cbn. by eapply lookup_weaken_None.
Qed.

Lemma ParseV2rayUser_stale (c : APIClient) (user : VMessUser) :
  VM_OnlineCount user = 0 ->
  LastReportOnline (ParseV2rayUser c user).1 !! VM_UID user = None.
Proof.
  intros HO. unfold ParseV2rayUser. rewrite HO.
  replace (0 <? 0) with false by done. rewrite andb_false_r. cbn [Z.eqb andb].
  case_bool_decide as Hok; cbn.
  - apply lookup_delete_eq.
  - by apply eq_None_not_Some.
Qed.

Lemma ParseTrojanUser_stale (c : APIClient) (user : TrojanUser) :
  TJ_OnlineCount user = 0 ->
  LastReportOnline (ParseTrojanUser c user).1 !! TJ_UID user = None.
Proof.
  intros HO. unfold ParseTrojanUser. rewrite HO.
  replace (0 <? 0) with false by done. rewrite andb_false_r. cbn [Z.eqb andb].
  case_bool_decide as Hok; cbn.
  - apply lookup_delete_eq.
  - by apply eq_None_not_Some.
Qed.

Lemma ParseV2rayUsers_stale (users : list (option VMessUser))
    (c : APIClient) (userList : list UserInfo) (user : VMessUser) :
  None ∉ users -> Some user ∈ users -> VM_OnlineCount user = 0 ->
  LastReportOnline (ParseV2rayUsers c users userList).2 !! VM_UID user = None.
Proof.
  revert c userList. induction users as [|[u|] users IH];
    intros c userList Hnil Hin HO.
  - by apply elem_of_nil in Hin.
  - apply not_elem_of_cons in Hnil as [_ Hnil]. cbn [ParseV2rayUsers].
    pose proof (ParseV2rayUser_stale c u) as Hu.
    destruct (ParseV2rayUser c u) as [c1 out] eqn:Hturn. cbn in Hu.
    apply elem_of_cons in Hin as [[= <-]|Hin].
    + destruct out;
        (eapply shrinks_lookup_None;
         [apply ParseV2rayUsers_shrinks|by apply Hu]).
    + destruct out; by apply IH.
  - destruct Hnil. by left.
Qed.

Lemma ParseTrojanUsers_stale (users : list (option TrojanUser))
    (c : APIClient) (userList : list UserInfo) (user : TrojanUser) :
  None ∉ users -> Some user ∈ users -> TJ_OnlineCount user = 0 ->
  LastReportOnline (ParseTrojanUsers c users userList).2 !! TJ_UID user = None.
Proof.
  revert c userList. induction users as [|[u|] users IH];
    intros c userList Hnil Hin HO.
  - by apply elem_of_nil in Hin.
  - apply not_elem_of_cons in Hnil as [_ Hnil]. cbn [ParseTrojanUsers].
    pose proof (ParseTrojanUser_stale c u) as Hu.
    destruct (ParseTrojanUser c u) as [c1 out] eqn:Hturn. cbn in Hu.
    apply elem_of_cons in Hin as [[= <-]|Hin].
    + destruct out;
        (eapply shrinks_lookup_None;
         [apply ParseTrojanUsers_shrinks|by apply Hu]).
    + destruct out; by apply IH.
  - destruct Hnil. by left.
Qed.

Section Fetch.
Context `{Ext : External}.

(** X17.  After the V2ray or the Trojan adapter has gone through a
    decoded payload with no null entry, no user of the payload whose
    online count is 0 has a retained session count any more, wherever
    the user stands in the payload and however often. *)
Theorem user_list_clears_stale_counts (c : APIClient) (raw : RawMessage) :
  (forall users user,
     Unmarshal_slice Unmarshal_VMessUser raw = Some users ->
     None ∉ users -> Some user ∈ users -> VM_OnlineCount user = 0 ->
     LastReportOnline (ParseV2rayUserListResponse c raw).2
       !! VM_UID user = None) /\
  (forall users user,
     Unmarshal_slice Unmarshal_TrojanUser raw = Some users ->
     None ∉ users -> Some user ∈ users -> TJ_OnlineCount user = 0 ->
     LastReportOnline (ParseTrojanUserListResponse c raw).2
       !! TJ_UID user = None).
Proof.
  unfold ParseV2rayUserListResponse, ParseTrojanUserListResponse.
  split; intros users user ->.
  - apply ParseV2rayUsers_stale.
  - apply ParseTrojanUsers_stale.
Qed.

(** X18.  Once the panel has answered the user-list fetch, the fetch
    returns what the adapter of the node type makes of the payload: when
    the adapter returns a list, the fetch returns that list and the
    client as the adapter leaves it; when the adapter panics, so does
    the fetch. *)
Theorem user_list_fetch_returns_the_adapter_list (c : APIClient)
    (sent : list Request) (path : string) (response : Response) :
  GetUserList_path c = Some path ->
  answered c sent GET path NoBody response ->
  let adapter :=
    if (NodeType c =? "V2ray")%string then ParseV2rayUserListResponse
    else if (NodeType c =? "Trojan")%string then ParseTrojanUserListResponse
    else ParseSSUserListResponse in
  (forall out c1,
     adapter c (Data response) = (Ok out, c1) ->
     (GetUserList c sent).1 = (Ok out, c1)) /\
  (forall p c1,
     adapter c (Data response) = (Panicked p, c1) ->
     (GetUserList c sent).1 = (Panicked p, c1)).
Proof.
  intros Hpath Hans adapter. subst adapter.
  unfold GetUserList, answered in *. rewrite Hpath.
  destruct (send c sent GET path NoBody) as [[res err] sent1].
  rewrite Hans. switch_node_type c.
  - by split; intros ? ? ->.
  - by split; intros ? ? ->.
  - by split; intros ? ? ->.
  - unfold GetUserList_path in Hpath.
    by rewrite !(proj2 (String.eqb_neq _ _)) in Hpath.
Qed.

End Fetch.

(** The payload of one user, answered to a V2ray client that retains two
    sessions of that user. *)
Lemma user_list_fetch_returns_the_adapter_list_witness :
  (GetUserList
     (Ext := Sample.panel (Sample.answers (Sample.envelope "success" "one")))
     (Sample.client "V2ray" 0 {[7 := 2]}) []).1 =
    (Ok [ {| UID := 7; Email := ""; Passwd := ""; UUID := "0b1c";
             UI_DeviceLimit := 2; UI_SpeedLimit := 0 |} ],
     Sample.client "V2ray" 0 {[7 := 2]}).
Proof.
  apply (user_list_fetch_returns_the_adapter_list
           (Ext := Sample.panel
                     (Sample.answers (Sample.envelope "success" "one")))
           (Sample.client "V2ray" 0 {[7 := 2]}) []
           "/api/v2ray/v1/userList/42" (Sample.envelope "success" "one"));
    by vm_compute.
Defined.
